(** * ZettlrIPC: the command router of source/main/zettlr-ipc.js

    A shallow embedding of [ZettlrIPC.dispatch], [ZettlrIPC.send] and
    [ZettlrIPC.handleEvent], and the properties of the router's contract.

    The router is JavaScript glue: it reads properties of the inbound
    message, calls methods of the injected application object and of the
    objects that one hands out (path tree, file, configuration), and emits
    messages to the renderer.  The embedding keeps exactly that: message
    payloads are JavaScript data values, the router runs in a small monad
    that threads the store, records every observable action in an event
    list and propagates thrown exceptions. *)

From Stdlib Require Import ZArith String List Bool Lia.
From stdpp Require Import base option gmap strings pretty.
Import ListNotations.
Local Open Scope string_scope.
Local Open Scope list_scope.

(** ** JavaScript data values *)

(** The values that travel over the transport: primitives and objects.  An
    object is the ordered list of its own properties (insertion order, as
    in JavaScript); an array is the object of its indices.  Functions do
    not travel over the transport, so no data value is callable. *)
#[warnings="-register-all"]
Inductive JSVal : Type :=
| VUndef : JSVal
| VNull : JSVal
| VBool : bool -> JSVal
| VNum : Z -> JSVal
| VStr : string -> JSVal
| VObj : list (string * JSVal) -> JSVal.

Definition props := list (string * JSVal).

(** The result of running a piece of JavaScript: a value or a thrown
    exception. *)
Inductive Outcome (A : Type) : Type :=
| Ret : A -> Outcome A
| Throw : JSVal -> Outcome A.
Arguments Ret {A} _.
Arguments Throw {A} _.

Definition TypeError (msg : string) : JSVal :=
  VObj [("name", VStr "TypeError"); ("message", VStr msg)].

Definition SyntaxError (msg : string) : JSVal :=
  VObj [("name", VStr "SyntaxError"); ("message", VStr msg)].

Definition is_nullish (v : JSVal) : bool :=
  match v with
  | VUndef | VNull => true
  | _ => false
  end.

(** *** Own properties *)

Fixpoint lookup_prop (k : string) (o : props) : option JSVal :=
  match o with
  | [] => None
  | (k', v) :: o' => if String.eqb k k' then Some v else lookup_prop k o'
  end.

(** [o[k] = v] on an object: overwrite in place, else append. *)
Fixpoint assign_prop (k : string) (v : JSVal) (o : props) : props :=
  match o with
  | [] => [(k, v)]
  | (k', v') :: o' =>
      if String.eqb k k' then (k, v) :: o' else (k', v') :: assign_prop k v o'
  end.

Definition index_name (n : nat) : string := pretty n.

(** The own property names of a string primitive are [length] and its
    indices. *)
Definition string_own (s k : string) : bool :=
  String.eqb k "length"
  || existsb (fun n => String.eqb k (index_name n)) (seq 0 (String.length s)).

(** The own-property test itself (Object.prototype.hasOwnProperty applied
    to a receiver that is not null or undefined). *)
Definition own_property (v : JSVal) (k : string) : bool :=
  match v with
  | VObj o => match lookup_prop k o with Some _ => true | None => false end
  | VStr s => string_own s k
  | _ => false
  end.

(** [v.hasOwnProperty(k)] as the source writes it: a property lookup on
    [v] followed by a call.  Reading a property of null or undefined
    throws; an own property named [hasOwnProperty] shadows the inherited
    method, and since no data value is callable the call then throws. *)
Definition hasOwnProperty (v : JSVal) (k : string) : Outcome bool :=
  if is_nullish v then
    Throw (TypeError "Cannot read properties of null or undefined")
  else if own_property v "hasOwnProperty" then
    Throw (TypeError "hasOwnProperty is not a function")
  else Ret (own_property v k).

(** [v.k] for the property names the router reads ([command], [content],
    [hash], [terms], [darkTheme], [snippets]); none of them is inherited
    from a prototype, so the read is the own property or undefined. *)
Definition get_prop (v : JSVal) (k : string) : Outcome JSVal :=
  match v with
  | VUndef | VNull =>
      Throw (TypeError "Cannot read properties of null or undefined")
  | VObj o => Ret (default VUndef (lookup_prop k o))
  | _ => Ret VUndef
  end.

(** [v.k = x].  On an object the property is written.  A class body is
    strict code, so the assignment throws on any other value: on a
    primitive because the property cannot be created, on null and
    undefined because there is nothing to write to. *)
Definition set_prop (v : JSVal) (k : string) (x : JSVal) : Outcome JSVal :=
  match v with
  | VObj o => Ret (VObj (assign_prop k x o))
  | VUndef | VNull =>
      Throw (TypeError "Cannot set properties of null or undefined")
  | _ => Throw (TypeError "Cannot create property on a primitive value")
  end.

(** *** Conversions and comparison *)

(** ToBoolean. *)
Definition to_boolean (v : JSVal) : bool :=
  match v with
  | VUndef | VNull => false
  | VBool b => b
  | VNum n => negb (n =? 0)%Z
  | VStr s => negb (String.eqb s "")
  | VObj _ => true
  end.

(** [!v] *)
Definition js_not (v : JSVal) : JSVal := VBool (negb (to_boolean v)).

(** The deep copy [JSON.parse(JSON.stringify(v))] on data: properties that
    hold undefined are dropped; undefined itself stringifies to undefined,
    which [JSON.parse] rejects. *)
Fixpoint json_data (v : JSVal) : JSVal :=
  match v with
  | VObj o =>
      VObj ((fix copy (l : props) : props :=
               match l with
               | [] => []
               | (k, VUndef) :: l' => copy l'
               | (k, x) :: l' => (k, json_data x) :: copy l'
               end) o)
  | _ => v
  end.

Definition json_roundtrip (v : JSVal) : Outcome JSVal :=
  match v with
  | VUndef => Throw (SyntaxError "undefined is not valid JSON")
  | _ => Ret (json_data v)
  end.

Section LooseEquality.

(** ToNumber on strings and ToPrimitive on objects are left to the
    language; the comparison below is the abstract equality algorithm
    over them.  Numbers are the integers (hashes, flags). *)
Variable StringToNumber : string -> option Z.
Variable ToPrimitive : props -> JSVal.

Definition bool_number (b : bool) : Z := if b then 1%Z else 0%Z.

Definition number_eq_string (n : Z) (s : string) : bool :=
  match StringToNumber s with
  | Some m => (n =? m)%Z
  | None => false
  end.

(** [x == y] on primitives. *)
Definition prim_loose_eq (x y : JSVal) : bool :=
  match x, y with
  | (VUndef | VNull), (VUndef | VNull) => true
  | VBool a, VBool b => Bool.eqb a b
  | VNum a, VNum b => (a =? b)%Z
  | VStr a, VStr b => String.eqb a b
  | VNum a, VStr b | VStr b, VNum a => number_eq_string a b
  | VBool a, VNum b | VNum b, VBool a => (bool_number a =? b)%Z
  | VBool a, VStr b | VStr b, VBool a => number_eq_string (bool_number a) b
  | _, _ => false
  end.

(** [x == y].  Two objects are equal only when they are the same
    object; a value that arrived in a message is never the object the
    configuration holds, so object against object is false here.  An
    object against a primitive is converted first, and the conversion is
    taken to return: the comparison of an object that has no usable
    valueOf or toString throws in the language and is outside this
    function, as is the difference between an array and a plain object.
    Against null and undefined nothing is converted. *)
Definition loose_eq (x y : JSVal) : bool :=
  match x, y with
  | VObj _, VObj _ => false
  | VObj o, _ => if is_nullish y then false else prim_loose_eq (ToPrimitive o) y
  | _, VObj o => if is_nullish x then false else prim_loose_eq x (ToPrimitive o)
  | _, _ => prim_loose_eq x y
  end.

(** [x != y] *)
Definition loose_neq (x y : JSVal) : bool := negb (loose_eq x y).

End LooseEquality.

(** ** The router's collaborators *)

(** The methods the router calls on the injected application object
    ([this._app]). *)
Inductive AppMethod : Type :=
| GetPaths | SendFile | SelectDir | SetModified | NewFile | NewDir
| SaveFile | AutoSave | Revert | OpenDir
| RemoveFile | GetCurrentFile | RemoveDir | GetCurrentDir
| GetConfig | ExportFile | RenameDir | RenameFile | RequestMove
| RetrieveDictFile.

(** The methods the router calls on the configuration object that
    [getConfig()] hands out. *)
Inductive CfgMethod : Type :=
| CfgGet | CfgSet | CfgUpdate | CfgGetConfig | CfgGetSupportedLangs
| CfgGetEnv.

(** Everything the router does that can be observed from outside, in the
    order in which it happens. *)
Inductive Event : Type :=
| AppCall (m : AppMethod) (args : list JSVal)
| ObjCall (recv : JSVal) (m : string) (args : list JSVal)
| CfgCall (m : CfgMethod) (args : list JSVal)
| Sent (command : string) (content : JSVal)
| ConsoleError (msg : string) (arg : JSVal)
| ConsoleLog (msg : string).

(** Modelled from the spec: the configuration object (class ZettlrConfig,
    which is not part of the router's file).  The spec describes it as a
    store of named settings with get, set and update, an environment part
    and a list of supported languages. *)
Record Config : Type := mkConfig {
  settings : gmap string JSVal;
  environment : gmap string JSVal;
  supportedLangs : JSVal
}.

(** Modelled from the spec: ZettlrConfig.get, the stored value of a named
    setting (null where there is none). *)
Definition cfg_get (k : JSVal) (c : Config) : JSVal :=
  match k with
  | VStr s => default VNull (settings c !! s)
  | _ => VNull
  end.

(** Modelled from the spec: ZettlrConfig.getEnv, the same on the
    environment part. *)
Definition cfg_getEnv (k : JSVal) (c : Config) : JSVal :=
  match k with
  | VStr s => default VNull (environment c !! s)
  | _ => VNull
  end.

(** Modelled from the spec: ZettlrConfig.set, which stores a value under
    a named setting. *)
Definition cfg_set (k : string) (v : JSVal) (c : Config) : Config :=
  mkConfig (<[k := v]> (settings c)) (environment c) (supportedLangs c).

(** Modelled from the spec: ZettlrConfig.update, which applies the whole
    incoming configuration, setting by setting. *)
Definition cfg_update (cnt : JSVal) (c : Config) : Config :=
  match cnt with
  | VObj o => fold_left (fun c' kv => cfg_set (fst kv) (snd kv) c') o c
  | _ => c
  end.

(** Modelled from the spec: ZettlrConfig.getConfig, the full
    configuration as one object. *)
Definition cfg_getConfig (c : Config) : JSVal :=
  VObj (map_to_list (settings c)).

(** The rest of the application, as the router sees it: a state that its
    methods read and change, the methods of the controller and of the
    objects it hands out (path tree, file), the translation function of
    common/lang/i18n.js, and the two conversions of the language that the
    loose comparison needs.  A method may return or throw. *)
Record Host : Type := mkHost {
  App : Type;
  app_call : AppMethod -> list JSVal -> App -> Outcome JSVal * App;
  obj_call : JSVal -> string -> list JSVal -> App -> Outcome JSVal * App;
  trans : string -> list JSVal -> string;
  StringToNumber : string -> option Z;
  ToPrimitive : props -> JSVal
}.

(** ** The router monad *)

Record Store (H : Host) : Type := mkStore {
  app : App H;
  config : Config
}.
Arguments mkStore {H} _ _.
Arguments app {H} _.
Arguments config {H} _.

Definition M (H : Host) (A : Type) : Type :=
  Store H -> Outcome A * Store H * list Event.

Definition ret {H A} (a : A) : M H A := fun s => (Ret a, s, []).

Definition bind {H A B} (m : M H A) (f : A -> M H B) : M H B :=
  fun s =>
    match m s with
    | (Ret a, s1, t1) =>
        match f a s1 with
        | (r, s2, t2) => (r, s2, t1 ++ t2)
        end
    | (Throw e, s1, t1) => (Throw e, s1, t1)
    end.

Declare Scope router_scope.
Delimit Scope router_scope with router.
Notation "'do' x <- m ; k" := (bind m (fun x => k))
  (at level 10, x name, m at level 100, k at level 200) : router_scope.
Notation "'run' m ; k" := (bind m (fun _ => k))
  (at level 10, m at level 100, k at level 200) : router_scope.
Local Open Scope router_scope.

Definition lift {H A} (o : Outcome A) : M H A := fun s => (o, s, []).

Definition emit {H} (e : Event) : M H unit := fun s => (Ret tt, s, [e]).

(** [this._app.m(args)] *)
Definition call_app {H} (m : AppMethod) (args : list JSVal) : M H JSVal :=
  fun s =>
    match app_call H m args (app s) with
    | (r, a) => (r, mkStore a (config s), [AppCall m args])
    end.

(** [recv.m(args)] on an object handed out by the controller. *)
Definition call_obj {H} (recv : JSVal) (m : string) (args : list JSVal)
  : M H JSVal :=
  fun s =>
    if is_nullish recv then
      (Throw (TypeError "Cannot read properties of null or undefined"), s, [])
    else
      match obj_call H recv m args (app s) with
      | (r, a) => (r, mkStore a (config s), [ObjCall recv m args])
      end.

(** [this._app.getConfig()]: the configuration object is the one the store
    holds; the accessor is taken to hand it out and do nothing else. *)
Definition getConfig {H} : M H unit := emit (AppCall GetConfig []).

Definition config_get {H} (k : JSVal) : M H JSVal :=
  fun s => (Ret (cfg_get k (config s)), s, [CfgCall CfgGet [k]]).

Definition config_getEnv {H} (k : JSVal) : M H JSVal :=
  fun s => (Ret (cfg_getEnv k (config s)), s, [CfgCall CfgGetEnv [k]]).

Definition config_set {H} (k : string) (v : JSVal) : M H unit :=
  fun s => (Ret tt, mkStore (app s) (cfg_set k v (config s)),
            [CfgCall CfgSet [VStr k; v]]).

Definition config_update {H} (cnt : JSVal) : M H unit :=
  fun s => (Ret tt, mkStore (app s) (cfg_update cnt (config s)),
            [CfgCall CfgUpdate [cnt]]).

Definition config_getConfig {H} : M H JSVal :=
  fun s => (Ret (cfg_getConfig (config s)), s, [CfgCall CfgGetConfig []]).

Definition config_getSupportedLangs {H} : M H JSVal :=
  fun s => (Ret (supportedLangs (config s)), s,
            [CfgCall CfgGetSupportedLangs []]).

(** ** ZettlrIPC *)

(** The command names of the [switch] in [handleEvent]. *)
Inductive Command : Type :=
| CGetPaths | CFileGetQuicklook | CFileGet | CDirSelect | CFileModified
| CFileNew | CDirNew | CFileSave | CFileAutosave | CFileRevert | CDirOpen
| CFileDelete | CDirDelete | CFileSearch | CToggleTheme | CToggleSnippets
| CExport | CDirRename | CFileRename | CRequestMove | CGetPreferences
| CUpdateConfig | CConfigGet | CConfigGetEnv | CTypoRequestLang
| CTypoRequestAff | CTypoRequestDic.

Definition command_table : list (string * Command) :=
  [ ("get-paths", CGetPaths); ("file-get-quicklook", CFileGetQuicklook);
    ("file-get", CFileGet); ("dir-select", CDirSelect);
    ("file-modified", CFileModified); ("file-new", CFileNew);
    ("dir-new", CDirNew); ("file-save", CFileSave);
    ("file-autosave", CFileAutosave); ("file-revert", CFileRevert);
    ("dir-open", CDirOpen); ("file-delete", CFileDelete);
    ("dir-delete", CDirDelete); ("file-search", CFileSearch);
    ("toggle-theme", CToggleTheme); ("toggle-snippets", CToggleSnippets);
    ("export", CExport); ("dir-rename", CDirRename);
    ("file-rename", CFileRename); ("request-move", CRequestMove);
    ("get-preferences", CGetPreferences); ("update-config", CUpdateConfig);
    ("config-get", CConfigGet); ("config-get-env", CConfigGetEnv);
    ("typo-request-lang", CTypoRequestLang);
    ("typo-request-aff", CTypoRequestAff);
    ("typo-request-dic", CTypoRequestDic) ].

Fixpoint find_case (s : string) (t : list (string * Command))
  : option Command :=
  match t with
  | [] => None
  | (name, c) :: t' => if String.eqb s name then Some c else find_case s t'
  end.

(** The case a [switch (cmd)] selects: the labels are string literals and
    the comparison is strict, so only a string selects one. *)
Definition select_case (cmd : JSVal) : option Command :=
  match cmd with
  | VStr s => find_case s command_table
  | _ => None
  end.

Section Router.

Context {H : Host}.

(** [send(command, content = {})].  The active window is taken to
    exist; the message goes out on the channel named message. *)
Definition send (command : string) (content : JSVal) : M H unit :=
  emit (Sent command (match content with VUndef => VObj [] | c => c end)).

(** [a != b] *)
Definition neq (a b : JSVal) : bool :=
  loose_neq (StringToNumber H) (ToPrimitive H) a b.

Definition handleCase (c : Command) (cnt : JSVal) : M H unit :=
  match c with
  | CGetPaths =>
      do paths <- call_app GetPaths [];
      send "paths" paths
  | CFileGetQuicklook =>
      do paths <- call_app GetPaths [];
      do file <- call_obj paths "findFile" [VObj [("hash", cnt)]];
      do full <- call_obj file "withContent" [];
      send "file-quicklook" full
  | CFileGet => run call_app SendFile [cnt]; ret tt
  | CDirSelect => run call_app SelectDir [cnt]; ret tt
  | CFileModified => run call_app SetModified []; ret tt
  | CFileNew => run call_app NewFile [cnt]; ret tt
  | CDirNew => run call_app NewDir [cnt]; ret tt
  | CFileSave => run call_app SaveFile [cnt]; ret tt
  | CFileAutosave => run call_app AutoSave [cnt]; ret tt
  | CFileRevert => run call_app Revert []; ret tt
  | CDirOpen => run call_app OpenDir []; ret tt
  | CFileDelete =>
      do byHash <- lift (hasOwnProperty cnt "hash");
      if byHash : bool then
        do hash <- lift (get_prop cnt "hash");
        run call_app RemoveFile [hash]; ret tt
      else
        do current <- call_app GetCurrentFile [];
        if neq current VNull then run call_app RemoveFile []; ret tt
        else ret tt
  | CDirDelete =>
      do byHash <- lift (hasOwnProperty cnt "hash");
      if byHash : bool then
        do hash <- lift (get_prop cnt "hash");
        run call_app RemoveDir [hash]; ret tt
      else
        do current <- call_app GetCurrentDir [];
        if neq current VNull then run call_app RemoveDir []; ret tt
        else ret tt
  | CFileSearch =>
      do paths <- call_app GetPaths [];
      do hash <- lift (get_prop cnt "hash");
      do file <- call_obj paths "findFile" [VObj [("hash", hash)]];
      do terms <- lift (get_prop cnt "terms");
      do result <- call_obj file "search" [terms];
      do hash' <- lift (get_prop cnt "hash");
      send "file-search-result" (VObj [("hash", hash'); ("result", result)])
  | CToggleTheme =>
      run getConfig;
      run getConfig;
      do dark <- config_get (VStr "darkTheme");
      config_set "darkTheme" (js_not dark)
  | CToggleSnippets =>
      run getConfig;
      run getConfig;
      do snip <- config_get (VStr "snippets");
      config_set "snippets" (js_not snip)
  | CExport => run call_app ExportFile [cnt]; ret tt
  | CDirRename => run call_app RenameDir [cnt]; ret tt
  | CFileRename => run call_app RenameFile [cnt]; ret tt
  | CRequestMove => run call_app RequestMove [cnt]; ret tt
  | CGetPreferences =>
      run getConfig;
      do cfg <- config_getConfig;
      do toSend <- lift (json_roundtrip cfg);
      run getConfig;
      do langs <- config_getSupportedLangs;
      do toSend' <- lift (set_prop toSend "supportedLangs" langs);
      send "preferences" toSend'
  | CUpdateConfig =>
      do dark <- lift (get_prop cnt "darkTheme");
      run getConfig;
      do dark0 <- config_get (VStr "darkTheme");
      run (if neq dark dark0 then send "toggle-theme" (VStr "no-emit")
           else ret tt);
      do snip <- lift (get_prop cnt "snippets");
      run getConfig;
      do snip0 <- config_get (VStr "snippets");
      run (if neq snip snip0 then send "toggle-snippets" (VStr "no-emit")
           else ret tt);
      run getConfig;
      config_update cnt
  | CConfigGet =>
      run getConfig;
      do value <- config_get cnt;
      send "config" (VObj [("key", cnt); ("value", value)])
  | CConfigGetEnv =>
      run getConfig;
      do value <- config_getEnv cnt;
      send "config" (VObj [("key", cnt); ("value", value)])
  | CTypoRequestLang =>
      run getConfig;
      do lang <- config_get (VStr "spellcheck");
      send "typo-lang" lang
  | CTypoRequestAff => run call_app RetrieveDictFile [VStr "aff"; cnt]; ret tt
  | CTypoRequestDic => run call_app RetrieveDictFile [VStr "dic"; cnt]; ret tt
  end.

(** [handleEvent(cmd, cnt)] *)
Definition handleEvent (cmd cnt : JSVal) : M H unit :=
  match select_case cmd with
  | Some c => handleCase c cnt
  | None => emit (ConsoleLog (trans H "system.unknown_command" [cmd]))
  end.

(** What a dispatch leaves behind: how it ended, the message object as
    it is afterwards, the store and the events. *)
Record Dispatched : Type := mkDispatched {
  outcome : Outcome unit;
  message : JSVal;
  store : Store H;
  events : list Event
}.

(** [dispatch(arg)].  The message object is passed by reference, so the
    assignment to [arg.content] is seen by whoever holds it. *)
Definition dispatch (arg : JSVal) (s : Store H) : Dispatched :=
  match hasOwnProperty arg "command" with
  | Throw e => mkDispatched (Throw e) arg s []
  | Ret false =>
      mkDispatched (Ret tt) arg s
        [ConsoleError (trans H "system.no_command" []) arg]
  | Ret true =>
      match hasOwnProperty arg "content" with
      | Throw e => mkDispatched (Throw e) arg s []
      | Ret hasContent =>
          match (if hasContent then Ret arg
                 else set_prop arg "content" (VObj [])) with
          | Throw e => mkDispatched (Throw e) arg s []
          | Ret arg' =>
              match get_prop arg' "command", get_prop arg' "content" with
              | Ret cmd, Ret cnt =>
                  match handleEvent cmd cnt s with
                  | (r, s', t) => mkDispatched r arg' s' t
                  end
              | Throw e, _ | _, Throw e => mkDispatched (Throw e) arg' s []
              end
          end
      end
  end.

End Router.

Arguments Dispatched : clear implicits.
Arguments dispatch : clear implicits.
Arguments handleEvent : clear implicits.
Arguments handleCase : clear implicits.

(** ** Observations on the events of a dispatch *)

Definition is_app_call (e : Event) : bool :=
  match e with AppCall _ _ => true | _ => false end.

Definition is_sent (e : Event) : bool :=
  match e with Sent _ _ => true | _ => false end.

(** The controller methods that only hand out something the controller
    holds: the configuration object, the current file, the current
    directory. *)
Definition is_accessor (m : AppMethod) : bool :=
  match m with
  | GetConfig | GetCurrentFile | GetCurrentDir => true
  | _ => false
  end.

Definition is_acting_call (e : Event) : bool :=
  match e with AppCall m _ => negb (is_accessor m) | _ => false end.

Definition app_calls (t : list Event) : list Event := List.filter is_app_call t.
Definition acting_calls (t : list Event) : list Event :=
  List.filter is_acting_call t.
Definition sent (t : list Event) : list Event := List.filter is_sent t.

(** A run makes at most [n] controller calls, at most [m] of them to
    methods other than the accessors. *)
Definition calls_within {H A} (n m : nat) (c : M H A) : Prop :=
  forall s, length (app_calls (snd (c s))) <= n
            /\ length (acting_calls (snd (c s))) <= m.

(** Messages as the renderer builds them. *)
Definition msg (command : JSVal) (content : JSVal) : JSVal :=
  VObj [("command", command); ("content", content)].

Definition bare_msg (command : JSVal) : JSVal := VObj [("command", command)].

(** The field [k] of an incoming content, undefined where there is none. *)
Definition incoming (cnt : JSVal) (k : string) : JSVal :=
  match get_prop cnt k with
  | Ret v => v
  | Throw _ => VUndef
  end.

(** ** A fake controller

    The controller is an injected interface, so the router can be run
    against a fake: its state is the current file, [removeFile] clears
    it, every other method returns undefined. *)
Definition fake_app_call (m : AppMethod) (args : list JSVal) (cur : JSVal)
  : Outcome JSVal * JSVal :=
  match m with
  | GetCurrentFile => (Ret cur, cur)
  | RemoveFile => (Ret VUndef, VNull)
  | _ => (Ret VUndef, cur)
  end.

Definition fake_host : Host :=
  {| App := JSVal;
     app_call := fake_app_call;
     obj_call := fun _ _ _ cur => (Ret VUndef, cur);
     trans := fun key _ => key;
     StringToNumber := fun _ => None;
     ToPrimitive := fun _ => VStr "[object Object]" |}.

Definition fake_config (dark snip : bool) : Config :=
  mkConfig (<["darkTheme" := VBool dark]> (<["snippets" := VBool snip]> ∅))
           ∅ (VObj []).

(** A store with an open file and the given two settings. *)
Definition fake_store (dark snip : bool) : Store fake_host :=
  mkStore (H := fake_host) (VObj [("hash", VNum 7)]) (fake_config dark snip).

(** A store whose darkTheme setting holds the string 0 instead of a
    boolean. *)
Definition text_theme_store : Store fake_host :=
  mkStore (H := fake_host) VNull
    (mkConfig (<["darkTheme" := VStr "0"]> (<["snippets" := VBool false]> ∅))
              ∅ (VObj [])).

(** A store with no file open. *)
Definition idle_store : Store fake_host :=
  mkStore (H := fake_host) VNull (fake_config false false).

(** ** The contract, as predicates on a dispatch *)

(** A payload is dropped silently: the dispatch returns normally, has
    logged the diagnostic and has done nothing else. *)
Definition dropped_silently (H : Host) (arg : JSVal) (s : Store H) : Prop :=
  let d := dispatch H arg s in
  outcome d = Ret tt
  /\ events d = [ConsoleError (trans H "system.no_command" []) arg]
  /\ app_calls (events d) = []
  /\ sent (events d) = []
  /\ store d = s.

(** The dispatch is exactly the run of [handleEvent] on [cmd] and [cnt]. *)
Definition handed_over (H : Host) (arg : JSVal) (s : Store H)
    (cmd cnt : JSVal) : Prop :=
  let d := dispatch H arg s in
  (outcome d, store d, events d) = handleEvent H cmd cnt s.

(** The contract of file-delete: by hash when the content has one, else
    the current file when the controller reports one, else nothing; and
    never a reply. *)
Definition file_delete_contract (H : Host) (cnt : JSVal) (s : Store H)
  : Prop :=
  let d := dispatch H (msg (VStr "file-delete") cnt) s in
  sent (events d) = []
  /\ if own_property cnt "hash" then
       acting_calls (events d) = [AppCall RemoveFile [incoming cnt "hash"]]
     else
       match app_call H GetCurrentFile [] (app s) with
       | (Ret current, _) =>
           if neq (H := H) current VNull then
             acting_calls (events d) = [AppCall RemoveFile []]
           else acting_calls (events d) = []
       | (Throw _, _) => acting_calls (events d) = []
       end.

Definition is_reply_or_update (e : Event) : bool :=
  match e with
  | Sent _ _ | CfgCall CfgUpdate _ => true
  | _ => false
  end.

(** The toggle replies an update-config owes: one for each of the two
    settings whose incoming value differs ([!=]) from the current one. *)
Definition owed_toggles (H : Host) (cnt : JSVal) (c : Config) : list Event :=
  (if neq (H := H) (incoming cnt "darkTheme") (cfg_get (VStr "darkTheme") c)
   then [Sent "toggle-theme" (VStr "no-emit")] else [])
  ++ (if neq (H := H) (incoming cnt "snippets") (cfg_get (VStr "snippets") c)
      then [Sent "toggle-snippets" (VStr "no-emit")] else []).

(** [x] and [y] are the same value.  An object that arrived in a message
    is never the object a setting holds. *)
Definition same_value (x y : JSVal) : bool :=
  match x, y with
  | VUndef, VUndef | VNull, VNull => true
  | VBool a, VBool b => Bool.eqb a b
  | VNum a, VNum b => (a =? b)%Z
  | VStr a, VStr b => String.eqb a b
  | _, _ => false
  end.

(** The pairs of values that [!=] compares without converting either
    one: two values of the same primitive type, or a value against null
    or undefined when it is neither. *)
Definition compared_plainly (x y : JSVal) : bool :=
  match x, y with
  | VUndef, VUndef | VNull, VNull => true
  | VBool _, VBool _ | VNum _, VNum _ | VStr _, VStr _ => true
  | (VUndef | VNull), (VBool _ | VNum _ | VStr _ | VObj _) => true
  | (VBool _ | VNum _ | VStr _ | VObj _), (VUndef | VNull) => true
  | _, _ => false
  end.

(** The toggle replies the claim asks of an update-config: one for each
    of the two settings whose incoming value is not the current one. *)
Definition claimed_toggles (cnt : JSVal) (c : Config) : list Event :=
  (if same_value (incoming cnt "darkTheme") (cfg_get (VStr "darkTheme") c)
   then [] else [Sent "toggle-theme" (VStr "no-emit")])
  ++ (if same_value (incoming cnt "snippets") (cfg_get (VStr "snippets") c)
      then [] else [Sent "toggle-snippets" (VStr "no-emit")]).

(** The contract of update-config as claimed: exactly those toggles are
    sent, all of them before the update, and the update is applied. *)
Definition update_config_claim (H : Host) (cnt : JSVal) (s : Store H)
  : Prop :=
  let d := dispatch H (msg (VStr "update-config") cnt) s in
  List.filter is_reply_or_update (events d)
    = claimed_toggles cnt (config s) ++ [CfgCall CfgUpdate [cnt]]
  /\ config (store d) = cfg_update cnt (config s).

(** The contract of dir-delete, the sibling of file-delete. *)
Definition dir_delete_contract (H : Host) (cnt : JSVal) (s : Store H)
  : Prop :=
  let d := dispatch H (msg (VStr "dir-delete") cnt) s in
  sent (events d) = []
  /\ if own_property cnt "hash" then
       acting_calls (events d) = [AppCall RemoveDir [incoming cnt "hash"]]
     else
       match app_call H GetCurrentDir [] (app s) with
       | (Ret current, _) =>
           if neq (H := H) current VNull then
             acting_calls (events d) = [AppCall RemoveDir []]
           else acting_calls (events d) = []
       | (Throw _, _) => acting_calls (events d) = []
       end.

(** The command names [handleEvent] passes to [send]. *)
Definition reply_commands : list string :=
  ["paths"; "file-quicklook"; "file-search-result"; "preferences";
   "toggle-theme"; "toggle-snippets"; "config"; "typo-lang"].

Definition is_reply_command (command : string) : bool :=
  existsb (String.eqb command) reply_commands.

(** An event passes when it is not an outbound message, or is one that
    satisfies [Q]. *)
Definition sent_ok (Q : string -> JSVal -> bool) (e : Event) : bool :=
  match e with
  | Sent command content => Q command content
  | _ => true
  end.

(** Every message a run sends satisfies [Q]. *)
Definition sends_only {H A} (Q : string -> JSVal -> bool) (c : M H A)
  : Prop :=
  forall s, forallb (sent_ok Q) (snd (c s)) = true.

(** An outbound message is well formed: its command is one of the reply
    commands and its content is not undefined. *)
Definition well_formed_reply (command : string) (content : JSVal) : bool :=
  is_reply_command command
  && match content with VUndef => false | _ => true end.


(** The calls that write to the configuration object. *)
Definition is_config_write (e : Event) : bool :=
  match e with
  | CfgCall (CfgSet | CfgUpdate) _ => true
  | _ => false
  end.

(** The cases of the switch that write to the configuration. *)
Definition writes_config (c : Command) : bool :=
  match c with
  | CToggleTheme | CToggleSnippets | CUpdateConfig => true
  | _ => false
  end.

Definition is_digit (a : Ascii.ascii) : bool :=
  ((48 <=? Ascii.nat_of_ascii a)%nat && (Ascii.nat_of_ascii a <=? 57)%nat)%bool.

Fixpoint all_digits (k : string) : bool :=
  match k with
  | EmptyString => true
  | String a k' => is_digit a && all_digits k'
  end.

(** The values that are neither objects nor null nor undefined. *)
Definition is_primitive (v : JSVal) : bool :=
  match v with
  | VBool _ | VNum _ | VStr _ => true
  | _ => false
  end.

(** The label of each case of the switch in [handleEvent]. *)
Definition label (c : Command) : string :=
  match c with
  | CGetPaths => "get-paths" | CFileGetQuicklook => "file-get-quicklook"
  | CFileGet => "file-get" | CDirSelect => "dir-select"
  | CFileModified => "file-modified" | CFileNew => "file-new"
  | CDirNew => "dir-new" | CFileSave => "file-save"
  | CFileAutosave => "file-autosave" | CFileRevert => "file-revert"
  | CDirOpen => "dir-open" | CFileDelete => "file-delete"
  | CDirDelete => "dir-delete" | CFileSearch => "file-search"
  | CToggleTheme => "toggle-theme" | CToggleSnippets => "toggle-snippets"
  | CExport => "export" | CDirRename => "dir-rename"
  | CFileRename => "file-rename" | CRequestMove => "request-move"
  | CGetPreferences => "get-preferences" | CUpdateConfig => "update-config"
  | CConfigGet => "config-get" | CConfigGetEnv => "config-get-env"
  | CTypoRequestLang => "typo-request-lang"
  | CTypoRequestAff => "typo-request-aff"
  | CTypoRequestDic => "typo-request-dic"
  end.

(** A second fake: a controller whose path tree knows no file, so that
    [findFile] returns null. *)
Definition bare_tree_host : Host :=
  {| App := unit;
     app_call := fun m _ a =>
       (Ret (match m with GetPaths => VObj [("children", VObj [])]
                        | _ => VUndef end), a);
     obj_call := fun _ m _ a =>
       (Ret (if String.eqb m "findFile" then VNull else VUndef), a);
     trans := fun key _ => key;
     StringToNumber := fun _ => None;
     ToPrimitive := fun _ => VStr "[object Object]" |}.

Definition bare_tree_store : Store bare_tree_host :=
  mkStore (H := bare_tree_host) tt (fake_config false false).

(** ** Properties *)

Section Facts.

Context (H : Host).

Lemma hasOwnProperty_plain (v : JSVal) (k : string) :
  is_nullish v = false ->
  own_property v "hasOwnProperty" = false ->
  hasOwnProperty v k = Ret (own_property v k).
Proof.
  intros Hn Hs. unfold hasOwnProperty. rewrite Hn, Hs. reflexivity.
Qed.

Lemma own_property_obj (o : props) (k : string) :
  own_property (VObj o) k = bool_decide (is_Some (lookup_prop k o)).
Proof.
  simpl. destruct (lookup_prop k o) as [v|]; symmetry.
  - apply bool_decide_eq_true. eauto.
  - apply bool_decide_eq_false. intros [v Hv]. discriminate.
Qed.

Lemma assign_prop_fresh (k : string) (v : JSVal) (o : props) :
  lookup_prop k o = None -> assign_prop k v o = o ++ [(k, v)].
Proof.
  induction o as [|[k' v'] o IH]; simpl; [reflexivity|].
  destruct (String.eqb k k'); [discriminate|].
  intros Hk. rewrite IH by exact Hk. reflexivity.
Qed.

Lemma lookup_prop_snoc_other (k k' : string) (v : JSVal) (o : props) :
  k <> k' -> lookup_prop k (o ++ [(k', v)]) = lookup_prop k o.
Proof.
  intros Hk. induction o as [|[k0 v0] o IH]; simpl.
  - destruct (String.eqb_spec k k'); [contradiction|reflexivity].
  - destruct (String.eqb k k0); [reflexivity|exact IH].
Qed.

Lemma lookup_prop_snoc_fresh (k : string) (v : JSVal) (o : props) :
  lookup_prop k o = None -> lookup_prop k (o ++ [(k, v)]) = Some v.
Proof.
  induction o as [|[k0 v0] o IH]; simpl.
  - rewrite String.eqb_refl. reflexivity.
  - destruct (String.eqb k k0); [discriminate|exact IH].
Qed.

(** What [dispatch] does with an object that has a command, no content
    and an intact [hasOwnProperty]. *)
Lemma dispatch_without_content (o : props) (cmd : JSVal) (s : Store H) :
  lookup_prop "hasOwnProperty" o = None ->
  lookup_prop "command" o = Some cmd ->
  lookup_prop "content" o = None ->
  dispatch H (VObj o) s =
    match handleEvent H cmd (VObj []) s with
    | (r, s', t) => mkDispatched r (VObj (o ++ [("content", VObj [])])) s' t
    end.
Proof.
  intros Hs Hc Hn. unfold dispatch, hasOwnProperty. simpl.
  rewrite Hs, Hc, Hn. simpl.
  rewrite (assign_prop_fresh _ _ _ Hn).
  rewrite lookup_prop_snoc_other by discriminate.
  rewrite (lookup_prop_snoc_fresh _ _ _ Hn), Hc. reflexivity.
Qed.

(** The same with a content. *)
Lemma dispatch_with_content (o : props) (cmd cnt : JSVal) (s : Store H) :
  lookup_prop "hasOwnProperty" o = None ->
  lookup_prop "command" o = Some cmd ->
  lookup_prop "content" o = Some cnt ->
  dispatch H (VObj o) s =
    match handleEvent H cmd cnt s with
    | (r, s', t) => mkDispatched r (VObj o) s' t
    end.
Proof.
  intros Hs Hc Hn. unfold dispatch, hasOwnProperty. simpl.
  rewrite Hs, Hc, Hn. simpl. rewrite Hc, Hn. reflexivity.
Qed.

Lemma dispatch_msg (cmd cnt : JSVal) (s : Store H) :
  dispatch H (msg cmd cnt) s =
    match handleEvent H cmd cnt s with
    | (r, s', t) => mkDispatched r (msg cmd cnt) s' t
    end.
Proof. apply dispatch_with_content; reflexivity. Qed.

Lemma get_prop_incoming (v : JSVal) (k : string) :
  is_nullish v = false -> get_prop v k = Ret (incoming v k).
Proof. destruct v; intros Hn; try discriminate Hn; reflexivity. Qed.

(** [x != null] holds of everything but null and undefined. *)
Lemma neq_null (v : JSVal) : neq (H := H) v VNull = negb (is_nullish v).
Proof. destruct v; reflexivity. Qed.

End Facts.

(** C1 (as amended).  A payload that is neither null nor undefined, that
    does not shadow [hasOwnProperty] with a property of its own and that
    lacks a command property is dropped silently: the diagnostic is
    logged, the dispatch returns normally, no controller method is called,
    no message is sent and the store is untouched. *)
Theorem dispatch_missing_command (H : Host) (arg : JSVal) (s : Store H) :
  is_nullish arg = false ->
  own_property arg "hasOwnProperty" = false ->
  own_property arg "command" = false ->
  dropped_silently H arg s.
Proof.
  intros Hn Hs Hc. unfold dropped_silently, dispatch.
  rewrite (hasOwnProperty_plain arg "command" Hn Hs), Hc. simpl.
  repeat split; reflexivity.
Qed.

Lemma dispatch_missing_command_witness :
  dropped_silently fake_host (VObj [("content", VStr "x")]) idle_store.
Proof.
  apply (dispatch_missing_command fake_host (VObj [("content", VStr "x")]));
    reflexivity.
Defined.

(** C1 (as stated) fails: null has no command property, yet dispatching
    it throws a TypeError out of [dispatch] instead of logging. *)
Lemma dispatch_missing_command_null :
  own_property VNull "command" = false
  /\ outcome (dispatch fake_host VNull idle_store)
     = Throw (TypeError "Cannot read properties of null or undefined")
  /\ ~ dropped_silently fake_host VNull idle_store.
Proof.
  split; [reflexivity|]. split; [reflexivity|].
  intros [Ho _]. discriminate Ho.
Qed.

(** C2.  A command string that is not in the command table makes
    [handleEvent] log the unknown-command warning and do nothing else: it
    returns normally, the store is unchanged, and the warning is the only
    event, so no controller method is called and nothing is sent. *)
Theorem handleEvent_unknown_command (H : Host) (name : string) (cnt : JSVal)
    (s : Store H) :
  find_case name command_table = None ->
  handleEvent H (VStr name) cnt s
    = (Ret tt, s, [ConsoleLog (trans H "system.unknown_command" [VStr name])])
  /\ app_calls (snd (handleEvent H (VStr name) cnt s)) = []
  /\ sent (snd (handleEvent H (VStr name) cnt s)) = [].
Proof.
  intros Hn. unfold handleEvent, select_case. rewrite Hn.
  repeat split; reflexivity.
Qed.

Lemma handleEvent_unknown_command_witness :
  handleEvent fake_host (VStr "file-explode") (VObj []) idle_store
    = (Ret tt, idle_store, [ConsoleLog "system.unknown_command"])
  /\ app_calls (snd (handleEvent fake_host (VStr "file-explode") (VObj [])
                       idle_store)) = []
  /\ sent (snd (handleEvent fake_host (VStr "file-explode") (VObj [])
                  idle_store)) = [].
Proof.
  apply (handleEvent_unknown_command fake_host "file-explode" (VObj [])
           idle_store).
  reflexivity.
Defined.

(** C3 (as amended).  A payload object that has a command property, has
    no content property and does not shadow [hasOwnProperty] is handed to
    [handleEvent] with its command and an empty mapping as the content. *)
Theorem dispatch_defaults_content (H : Host) (o : props) (cmd : JSVal)
    (s : Store H) :
  lookup_prop "hasOwnProperty" o = None ->
  lookup_prop "command" o = Some cmd ->
  lookup_prop "content" o = None ->
  handed_over H (VObj o) s cmd (VObj []).
Proof.
  intros Hs Hc Hn. unfold handed_over.
  rewrite (dispatch_without_content H o cmd s Hs Hc Hn).
  destruct (handleEvent H cmd (VObj []) s) as [[r s'] t]. reflexivity.
Qed.

Lemma dispatch_defaults_content_witness :
  handed_over fake_host (VObj [("command", VStr "file-modified")])
    (fake_store false false) (VStr "file-modified") (VObj []).
Proof.
  apply (dispatch_defaults_content fake_host
           [("command", VStr "file-modified")] (VStr "file-modified"));
    reflexivity.
Defined.

(** C3 (as stated) fails: a payload with a command, without a content and
    with a property of its own named hasOwnProperty never reaches
    [handleEvent]; the own-property test itself throws. *)
Lemma dispatch_defaults_content_shadowed :
  let arg := VObj [("command", VStr "file-modified");
                   ("hasOwnProperty", VBool true)] in
  own_property arg "command" = true
  /\ own_property arg "content" = false
  /\ dispatch fake_host arg (fake_store false false)
     = mkDispatched (H := fake_host)
         (Throw (TypeError "hasOwnProperty is not a function")) arg
         (fake_store false false) []
  /\ ~ handed_over fake_host arg (fake_store false false)
         (VStr "file-modified") (VObj []).
Proof.
  repeat split; try reflexivity.
  unfold handed_over. intros Heq.
  apply (f_equal (fun p => fst (fst p))) in Heq. discriminate Heq.
Qed.

Lemma lookup_prop_assign_other (k k' : string) (v : JSVal) (o : props) :
  k <> k' -> lookup_prop k (assign_prop k' v o) = lookup_prop k o.
Proof.
  intros Hk. induction o as [|[k0 v0] o IH]; simpl.
  - destruct (String.eqb_spec k k'); [contradiction|reflexivity].
  - destruct (String.eqb_spec k' k0) as [->|Hne]; simpl.
    + destruct (String.eqb_spec k k0); [contradiction|reflexivity].
    + destruct (String.eqb k k0); [reflexivity|exact IH].
Qed.

Lemma lookup_prop_assign_same (k : string) (v : JSVal) (o : props) :
  lookup_prop k (assign_prop k v o) = Some v.
Proof.
  induction o as [|[k0 v0] o IH]; simpl.
  - rewrite String.eqb_refl. reflexivity.
  - destruct (String.eqb k k0) eqn:Hk; simpl.
    + rewrite String.eqb_refl. reflexivity.
    + rewrite Hk. exact IH.
Qed.



(** C7 (as amended).  The only change [dispatch] makes to the message
    object is to add a content property holding an empty mapping, and it
    makes it only to an object that has a command and no content; every
    other payload is left as it was, and no property is ever removed or
    given another value. *)
Theorem dispatch_message_frame (H : Host) (arg : JSVal) (s : Store H) :
  message (dispatch H arg s) = arg
  \/ (own_property arg "command" = true
      /\ own_property arg "content" = false
      /\ exists o, arg = VObj o
           /\ message (dispatch H arg s) = VObj (o ++ [("content", VObj [])])
           /\ forall k, k <> "content" ->
                lookup_prop k (o ++ [("content", VObj [])]) = lookup_prop k o).
Proof.
  unfold dispatch, hasOwnProperty.
  destruct (is_nullish arg) eqn:Hn; [left; reflexivity|].
  destruct (own_property arg "hasOwnProperty"); [left; reflexivity|].
  destruct (own_property arg "command") eqn:Hc; [|left; reflexivity].
  destruct (own_property arg "content") eqn:Hk.
  - left. destruct (get_prop arg "command") as [cmd|e],
                    (get_prop arg "content") as [cnt|e']; try reflexivity.
    destruct (handleEvent H cmd cnt s) as [[r s'] t]. reflexivity.
  - destruct arg as [| |b|n|str|o]; try discriminate Hn.
    + left. reflexivity.
    + left. reflexivity.
    + left. simpl. destruct (handleEvent H VUndef VUndef s) as [[r s'] t].
      reflexivity.
    + right. split; [reflexivity|]. split; [reflexivity|].
      exists o. split; [reflexivity|].
      assert (Hfresh : lookup_prop "content" o = None).
      { simpl in Hk. destruct (lookup_prop "content" o); [discriminate|].
        reflexivity. }
      split.
      * simpl. rewrite (assign_prop_fresh _ _ _ Hfresh).
        destruct (handleEvent H _ _ s) as [[r s'] t]. reflexivity.
      * intros k Hne. apply lookup_prop_snoc_other. exact Hne.
Qed.

(** C7 (as stated) fails: dispatching a message without a content leaves
    the message object with a content property it did not have. *)
Lemma dispatch_message_changed :
  message (dispatch fake_host (bare_msg (VStr "file-modified"))
             (fake_store false false))
  = msg (VStr "file-modified") (VObj [])
  /\ message (dispatch fake_host (bare_msg (VStr "file-modified"))
                (fake_store false false))
     <> bare_msg (VStr "file-modified").
Proof.
  split; [reflexivity|]. intros Heq. discriminate Heq.
Qed.

(** Unfolding one run of the router. *)
Ltac router_unfold :=
  cbv [handleCase bind lift emit ret call_app call_obj getConfig send
       config_get config_getEnv config_set config_update config_getConfig
       config_getSupportedLangs].

(** C4 (as amended).  For a file-delete whose content is neither null nor
    undefined and does not shadow [hasOwnProperty]: with a hash in the
    content the controller's removeFile is called with that hash;
    otherwise, when getCurrentFile reports something other than null (or
    undefined), removeFile is called without argument; otherwise nothing
    but the query is made.  No reply is sent in any case. *)
Theorem file_delete_dispatch (H : Host) (cnt : JSVal) (s : Store H) :
  is_nullish cnt = false ->
  own_property cnt "hasOwnProperty" = false ->
  file_delete_contract H cnt s.
Proof.
  intros Hn Hs. unfold file_delete_contract. rewrite dispatch_msg.
  unfold handleEvent.
  change (select_case (VStr "file-delete")) with (Some CFileDelete).
  router_unfold.
  rewrite (hasOwnProperty_plain cnt "hash" Hn Hs).
  destruct (own_property cnt "hash").
  - rewrite (get_prop_incoming cnt "hash" Hn).
    destruct (app_call H RemoveFile _ (app s)) as [[r|e] a]; simpl;
      split; reflexivity.
  - destruct (app_call H GetCurrentFile [] (app s)) as [[cur|e] a]; simpl.
    + destruct (neq cur VNull); simpl.
      * destruct (app_call H RemoveFile [] a) as [[r|e] a']; simpl;
          split; reflexivity.
      * split; reflexivity.
    + split; reflexivity.
Qed.

Lemma file_delete_dispatch_witness :
  file_delete_contract fake_host (VObj [("hash", VNum 42)])
    (fake_store false false)
  /\ file_delete_contract fake_host (VObj []) (fake_store false false)
  /\ file_delete_contract fake_host (VObj []) idle_store.
Proof.
  split; [|split].
  - apply (file_delete_dispatch fake_host (VObj [("hash", VNum 42)]));
      reflexivity.
  - apply (file_delete_dispatch fake_host (VObj [])); reflexivity.
  - apply (file_delete_dispatch fake_host (VObj [])); reflexivity.
Defined.

(** C4 (as stated) fails: with null as the content there is no hash and
    the controller reports an open file, yet removeFile is not called;
    the property test on the content throws before any call. *)
Lemma file_delete_null_content :
  own_property VNull "hash" = false
  /\ app_call fake_host GetCurrentFile [] (app (fake_store false false))
     = (Ret (VObj [("hash", VNum 7)]), VObj [("hash", VNum 7)])
  /\ events (dispatch fake_host (msg (VStr "file-delete") VNull)
               (fake_store false false)) = []
  /\ ~ file_delete_contract fake_host VNull (fake_store false false).
Proof.
  repeat split; try reflexivity.
  intros [_ Hc]. simpl in Hc. discriminate Hc.
Qed.

(** Where [!=] converts neither operand, it is plain difference. *)
Lemma neq_plain (H : Host) (x y : JSVal) :
  compared_plainly x y = true -> neq (H := H) x y = negb (same_value x y).
Proof.
  destruct x, y; intros Hc; try discriminate Hc; reflexivity.
Qed.

(** C5 (as amended).  For an update-config whose content is neither null
    nor undefined, and in which each of the two incoming values
    (darkTheme, snippets) is compared with the current setting without a
    conversion (both of the same primitive type, or exactly one of them
    null or undefined): the router sends, exactly for each of the two
    settings whose incoming value differs from the current one, the
    toggle-theme or toggle-snippets reply with the no-emit sentinel; all
    replies precede the update, and the update with the whole content is
    applied. *)
Theorem update_config_dispatch (H : Host) (cnt : JSVal) (s : Store H) :
  is_nullish cnt = false ->
  compared_plainly (incoming cnt "darkTheme")
    (cfg_get (VStr "darkTheme") (config s)) = true ->
  compared_plainly (incoming cnt "snippets")
    (cfg_get (VStr "snippets") (config s)) = true ->
  update_config_claim H cnt s.
Proof.
  intros Hn Hd Hs. unfold update_config_claim. rewrite dispatch_msg.
  unfold handleEvent.
  change (select_case (VStr "update-config")) with (Some CUpdateConfig).
  router_unfold.
  rewrite !(get_prop_incoming cnt _ Hn). unfold claimed_toggles.
  cbn [config app]. rewrite (neq_plain H _ _ Hd).
  destruct (same_value (incoming cnt "darkTheme") _); cbn [negb config app];
    rewrite (neq_plain H _ _ Hs);
    destruct (same_value (incoming cnt "snippets") _); simpl;
    split; reflexivity.
Qed.

Lemma update_config_dispatch_witness :
  update_config_claim fake_host
    (VObj [("darkTheme", VBool true); ("snippets", VBool false)])
    (fake_store false false)
  /\ claimed_toggles
       (VObj [("darkTheme", VBool true); ("snippets", VBool false)])
       (config (fake_store false false))
     = [Sent "toggle-theme" (VStr "no-emit")]
  /\ update_config_claim fake_host (VObj [("spellcheck", VStr "de_DE")])
       (fake_store false false).
Proof.
  split; [|split].
  - apply (update_config_dispatch fake_host
             (VObj [("darkTheme", VBool true); ("snippets", VBool false)]));
      vm_compute; reflexivity.
  - vm_compute. reflexivity.
  - apply (update_config_dispatch fake_host
             (VObj [("spellcheck", VStr "de_DE")]));
      vm_compute; reflexivity.
Defined.

(** C5 (as stated) fails, in two ways.  With null as the content the
    incoming settings (there are none) differ from the current ones, yet
    no reply is sent and no update is applied: reading the field of null
    throws.  And with the number 1 as the incoming darkTheme while the
    setting holds true, the two values differ, yet no toggle-theme is
    sent: [!=] converts true to 1 before it compares. *)
Lemma update_config_as_stated :
  (claimed_toggles VNull (config (fake_store true false))
     = [Sent "toggle-theme" (VStr "no-emit");
        Sent "toggle-snippets" (VStr "no-emit")]
   /\ dispatch fake_host (msg (VStr "update-config") VNull)
        (fake_store true false)
      = mkDispatched (H := fake_host)
          (Throw (TypeError "Cannot read properties of null or undefined"))
          (msg (VStr "update-config") VNull) (fake_store true false) []
   /\ ~ update_config_claim fake_host VNull (fake_store true false))
  /\ (let cnt := VObj [("darkTheme", VNum 1); ("snippets", VBool false)] in
      claimed_toggles cnt (config (fake_store true false))
        = [Sent "toggle-theme" (VStr "no-emit")]
      /\ sent (events (dispatch fake_host (msg (VStr "update-config") cnt)
                         (fake_store true false))) = []
      /\ ~ update_config_claim fake_host cnt (fake_store true false)).
Proof.
  split.
  - split; [vm_compute; reflexivity|]. split; [reflexivity|].
    intros [Hf _]. vm_compute in Hf. discriminate Hf.
  - cbv zeta. split; [vm_compute; reflexivity|].
    split; [vm_compute; reflexivity|].
    intros [Hf _]. vm_compute in Hf. discriminate Hf.
Qed.

Lemma cfg_set_set (k : string) (v w : JSVal) (c : Config) :
  cfg_set k w (cfg_set k v c) = cfg_set k w c.
Proof. unfold cfg_set. simpl. rewrite insert_insert_eq. reflexivity. Qed.

Lemma cfg_set_same (k : string) (v : JSVal) (c : Config) :
  settings c !! k = Some v -> cfg_set k v c = c.
Proof.
  intros Hk. destruct c as [st env langs]. unfold cfg_set. simpl in *.
  rewrite (insert_id st k v Hk). reflexivity.
Qed.

Lemma cfg_get_set (k : string) (v : JSVal) (c : Config) :
  cfg_get (VStr k) (cfg_set k v c) = v.
Proof. unfold cfg_get, cfg_set. simpl. rewrite lookup_insert_eq. reflexivity. Qed.

(** What one toggle-theme does, whatever the content. *)
Lemma toggle_theme_run (H : Host) (cnt : JSVal) (s : Store H) :
  handleEvent H (VStr "toggle-theme") cnt s
  = (Ret tt,
     mkStore (app s)
       (cfg_set "darkTheme" (js_not (cfg_get (VStr "darkTheme") (config s)))
          (config s)),
     [AppCall GetConfig []; AppCall GetConfig [];
      CfgCall CfgGet [VStr "darkTheme"];
      CfgCall CfgSet [VStr "darkTheme";
                      js_not (cfg_get (VStr "darkTheme") (config s))]]).
Proof. reflexivity. Qed.

Lemma toggle_snippets_run (H : Host) (cnt : JSVal) (s : Store H) :
  handleEvent H (VStr "toggle-snippets") cnt s
  = (Ret tt,
     mkStore (app s)
       (cfg_set "snippets" (js_not (cfg_get (VStr "snippets") (config s)))
          (config s)),
     [AppCall GetConfig []; AppCall GetConfig [];
      CfgCall CfgGet [VStr "snippets"];
      CfgCall CfgSet [VStr "snippets";
                      js_not (cfg_get (VStr "snippets") (config s))]]).
Proof. reflexivity. Qed.

(** C6 (as amended).  When the darkTheme setting holds a boolean,
    dispatching toggle-theme twice brings the configuration back: with
    the setting holding [b], it holds [negb b] after the first dispatch
    and [b] again after the second, and the configuration as a whole is
    the one before. *)
Theorem toggle_theme_twice (H : Host) (c1 c2 : JSVal) (s : Store H)
    (b : bool) :
  settings (config s) !! "darkTheme" = Some (VBool b) ->
  let d1 := dispatch H (msg (VStr "toggle-theme") c1) s in
  let d2 := dispatch H (msg (VStr "toggle-theme") c2) (store d1) in
  cfg_get (VStr "darkTheme") (config (store d1)) = VBool (negb b)
  /\ cfg_get (VStr "darkTheme") (config (store d2)) = VBool b
  /\ config (store d2) = config s.
Proof.
  intros Hb d1 d2. subst d1 d2.
  rewrite !dispatch_msg, !toggle_theme_run. cbn [store config app].
  assert (Hget : cfg_get (VStr "darkTheme") (config s) = VBool b).
  { unfold cfg_get. rewrite Hb. reflexivity. }
  rewrite !cfg_get_set, Hget, cfg_set_set.
  assert (Hnot : js_not (js_not (VBool b)) = VBool b).
  { unfold js_not. simpl. rewrite Bool.negb_involutive. reflexivity. }
  rewrite Hnot.
  split; [reflexivity|]. split; [reflexivity|].
  apply cfg_set_same. exact Hb.
Qed.

Lemma toggle_theme_twice_witness :
  config (store (dispatch fake_host (msg (VStr "toggle-theme") (VObj []))
                   (store (dispatch fake_host
                             (msg (VStr "toggle-theme") (VObj []))
                             (fake_store true false)))))
  = config (fake_store true false).
Proof.
  apply (toggle_theme_twice fake_host (VObj []) (VObj [])
           (fake_store true false) true).
  vm_compute. reflexivity.
Defined.

(** C6 (as stated) fails: the toggle stores the negation of the
    setting's truth value, so a setting that does not hold a boolean does
    not come back.  With the string 0 stored, the first dispatch stores
    false (a non-empty string is true) and the second stores true. *)
Lemma toggle_theme_twice_text :
  let d1 := dispatch fake_host (msg (VStr "toggle-theme") (VObj []))
              text_theme_store in
  let d2 := dispatch fake_host (msg (VStr "toggle-theme") (VObj []))
              (store d1) in
  cfg_get (VStr "darkTheme") (config text_theme_store) = VStr "0"
  /\ cfg_get (VStr "darkTheme") (config (store d1)) = VBool false
  /\ cfg_get (VStr "darkTheme") (config (store d2)) = VBool true
  /\ cfg_get (VStr "darkTheme") (config (store d2))
     <> cfg_get (VStr "darkTheme") (config text_theme_store).
Proof.
  cbv zeta. split; [vm_compute; reflexivity|].
  split; [vm_compute; reflexivity|]. split; [vm_compute; reflexivity|].
  intros Heq. vm_compute in Heq. discriminate Heq.
Qed.

(** C10.  The toggle-theme and toggle-snippets handlers do not look at
    the content: for any two contents, the no-emit sentinel included,
    [handleEvent] ends the same way, leaves the same store and produces
    the same events, and among those events there is no outbound
    message. *)
Theorem toggle_ignores_content (H : Host) (c1 c2 : JSVal) (s : Store H) :
  handleEvent H (VStr "toggle-theme") c1 s
    = handleEvent H (VStr "toggle-theme") c2 s
  /\ handleEvent H (VStr "toggle-theme") (VStr "no-emit") s
     = handleEvent H (VStr "toggle-theme") c2 s
  /\ sent (snd (handleEvent H (VStr "toggle-theme") c1 s)) = []
  /\ handleEvent H (VStr "toggle-snippets") c1 s
     = handleEvent H (VStr "toggle-snippets") c2 s
  /\ handleEvent H (VStr "toggle-snippets") (VStr "no-emit") s
     = handleEvent H (VStr "toggle-snippets") c2 s
  /\ sent (snd (handleEvent H (VStr "toggle-snippets") c1 s)) = [].
Proof.
  rewrite !toggle_theme_run, !toggle_snippets_run.
  repeat split; reflexivity.
Qed.

(** *** Counting controller calls, combinator by combinator *)

Section CallBounds.

Context {H : Host}.

Lemma app_calls_app (t u : list Event) :
  length (app_calls (t ++ u))
  = length (app_calls t) + length (app_calls u).
Proof.
  unfold app_calls. rewrite List.filter_app, List.length_app. reflexivity.
Qed.

Lemma acting_calls_app (t u : list Event) :
  length (acting_calls (t ++ u))
  = length (acting_calls t) + length (acting_calls u).
Proof.
  unfold acting_calls. rewrite List.filter_app, List.length_app.
  reflexivity.
Qed.

Lemma within_weaken {A} (n m n' m' : nat) (c : M H A) :
  calls_within (H := H) n m c -> n <= n' -> m <= m' -> calls_within (H := H) n' m' c.
Proof. intros Hc Hn Hm s. destruct (Hc s). split; lia. Qed.

Lemma within_ret {A} (a : A) : calls_within (H := H) 0 0 (ret a).
Proof. intros s. simpl. split; lia. Qed.

Lemma within_lift {A} (o : Outcome A) : calls_within (H := H) 0 0 (lift o).
Proof. intros s. simpl. split; lia. Qed.

Lemma within_bind {A B} (n m n' m' : nat) (c : M H A) (f : A -> M H B) :
  calls_within (H := H) n m c ->
  (forall a, calls_within (H := H) n' m' (f a)) ->
  calls_within (H := H) (n + n') (m + m') (bind c f).
Proof.
  intros Hc Hf s. unfold bind. specialize (Hc s).
  destruct (c s) as [[[a|e] s1] t1]; simpl in *.
  - specialize (Hf a s1). destruct (f a s1) as [[r s2] t2]. simpl in *.
    rewrite app_calls_app, acting_calls_app. lia.
  - lia.
Qed.

Lemma within_if {A} (n m n' m' : nat) (b : bool) (c c' : M H A) :
  calls_within (H := H) n m c -> calls_within (H := H) n' m' c' ->
  calls_within (H := H) (Nat.max n n') (Nat.max m m') (if b then c else c').
Proof.
  intros Hc Hc'. destruct b.
  - apply (within_weaken n m); [exact Hc|lia|lia].
  - apply (within_weaken n' m'); [exact Hc'|lia|lia].
Qed.

Lemma within_call_app (f : AppMethod) (args : list JSVal) :
  calls_within (H := H) 1 (if is_accessor f then 0 else 1) (call_app f args).
Proof.
  intros s. unfold call_app.
  destruct (app_call H f args (app s)) as [r a]. simpl.
  destruct (is_accessor f); simpl; lia.
Qed.

Lemma within_call_obj (recv : JSVal) (f : string) (args : list JSVal) :
  calls_within (H := H) 0 0 (call_obj recv f args).
Proof.
  intros s. unfold call_obj. destruct (is_nullish recv); simpl; [lia|].
  destruct (obj_call H recv f args (app s)) as [r a]. simpl. lia.
Qed.

Lemma within_getConfig : calls_within (H := H) 1 0 (getConfig (H := H)).
Proof. intros s. simpl. lia. Qed.

Lemma within_send (command : string) (content : JSVal) :
  calls_within (H := H) 0 0 (send command content).
Proof. intros s. simpl. lia. Qed.

Lemma within_config_get (k : JSVal) : calls_within (H := H) 0 0 (config_get k).
Proof. intros s. simpl. lia. Qed.

Lemma within_config_getEnv (k : JSVal) : calls_within (H := H) 0 0 (config_getEnv k).
Proof. intros s. simpl. lia. Qed.

Lemma within_config_set (k : string) (v : JSVal) :
  calls_within (H := H) 0 0 (config_set k v).
Proof. intros s. simpl. lia. Qed.

Lemma within_config_update (cnt : JSVal) :
  calls_within (H := H) 0 0 (config_update cnt).
Proof. intros s. simpl. lia. Qed.

Lemma within_config_getConfig : calls_within (H := H) 0 0 (config_getConfig (H := H)).
Proof. intros s. simpl. lia. Qed.

Lemma within_config_getSupportedLangs :
  calls_within (H := H) 0 0 (config_getSupportedLangs (H := H)).
Proof. intros s. simpl. lia. Qed.

End CallBounds.

Create HintDb router_calls.
#[export] Hint Resolve within_ret within_lift within_call_obj
  within_getConfig within_send within_config_get within_config_getEnv
  within_config_set within_config_update within_config_getConfig
  within_config_getSupportedLangs : router_calls.

(** Bound a handler by walking down its binds. *)
Ltac within_step :=
  lazymatch goal with
  | |- calls_within _ _ (bind _ _) => eapply within_bind; [|intros ?]
  | |- calls_within _ _ (if _ then _ else _) => eapply within_if
  | |- calls_within _ _ (call_app _ _) => apply within_call_app
  | |- calls_within _ _ _ => solve [eauto with router_calls]
  end.

Lemma handleCase_calls (H : Host) (c : Command) (cnt : JSVal) :
  calls_within 3 1 (handleCase H c cnt).
Proof.
  destruct c; unfold handleCase;
    (eapply within_weaken; [repeat within_step|simpl; lia|simpl; lia]).
Qed.

Lemma handleEvent_calls (H : Host) (cmd cnt : JSVal) (s : Store H) :
  length (app_calls (snd (handleEvent H cmd cnt s))) <= 3
  /\ length (acting_calls (snd (handleEvent H cmd cnt s))) <= 1.
Proof.
  unfold handleEvent. destruct (select_case cmd) as [c|].
  - apply handleCase_calls.
  - simpl. split; lia.
Qed.

(** C8 (as amended).  A single dispatch calls at most one method of the
    controller that is not one of its accessors getConfig, getCurrentFile
    and getCurrentDir, and at most three methods of the controller in
    all. *)
Theorem dispatch_controller_calls (H : Host) (arg : JSVal) (s : Store H) :
  length (acting_calls (events (dispatch H arg s))) <= 1
  /\ length (app_calls (events (dispatch H arg s))) <= 3.
Proof.
  unfold dispatch.
  destruct (hasOwnProperty arg "command") as [[|]|e]; simpl; [|lia|lia].
  destruct (hasOwnProperty arg "content") as [hc|e]; simpl; [|lia].
  destruct (if hc then Ret arg else set_prop arg "content" (VObj []))
    as [arg'|e]; simpl; [|lia].
  destruct (get_prop arg' "command") as [cmd|e],
           (get_prop arg' "content") as [cnt|e']; simpl; try lia.
  pose proof (handleEvent_calls H cmd cnt s) as [Ha Hm].
  destruct (handleEvent H cmd cnt s) as [[r s'] t]. simpl in *. lia.
Qed.

(** C8 (as stated) fails: a file-delete without a hash, with a file open,
    calls getCurrentFile and then removeFile on the controller. *)
Lemma dispatch_two_controller_calls :
  app_calls (events (dispatch fake_host (msg (VStr "file-delete") (VObj []))
                       (fake_store false false)))
  = [AppCall GetCurrentFile []; AppCall RemoveFile []]
  /\ ~ length (app_calls
                 (events (dispatch fake_host
                            (msg (VStr "file-delete") (VObj []))
                            (fake_store false false)))) <= 1.
Proof.
  split; [reflexivity|]. simpl. lia.
Qed.


(** ** Further properties of the router *)

(** How a dispatch can end: the presence test throws, the payload is
    dropped, or the dispatch is a run of [handleEvent] on the command the
    payload holds. *)
Lemma dispatch_cases (H : Host) (arg : JSVal) (s : Store H) :
  (exists e, outcome (dispatch H arg s) = Throw e
             /\ events (dispatch H arg s) = []
             /\ store (dispatch H arg s) = s)
  \/ (outcome (dispatch H arg s) = Ret tt
      /\ events (dispatch H arg s)
         = [ConsoleError (trans H "system.no_command" []) arg]
      /\ store (dispatch H arg s) = s)
  \/ (exists cnt,
        (outcome (dispatch H arg s), store (dispatch H arg s),
         events (dispatch H arg s))
        = handleEvent H (incoming arg "command") cnt s).
Proof.
  unfold dispatch.
  destruct (hasOwnProperty arg "command") as [[|]|e] eqn:Hc; simpl.
  - destruct (hasOwnProperty arg "content") as [hc|e]; simpl;
      [|left; eauto].
    assert (Hcmd : forall arg',
               (if hc then Ret arg else set_prop arg "content" (VObj []))
               = Ret arg' ->
               get_prop arg' "command" = Ret (incoming arg "command")).
    { intros arg' Harg. destruct arg as [| |b|n|str|o];
        try discriminate Hc; destruct hc; simpl in Harg;
        try discriminate Harg; injection Harg as <-; try reflexivity.
      simpl. unfold incoming. simpl.
      rewrite lookup_prop_assign_other by discriminate. reflexivity. }
    destruct (if hc then Ret arg else set_prop arg "content" (VObj []))
      as [arg'|e]; simpl; [|left; eauto].
    rewrite (Hcmd arg' eq_refl).
    destruct (get_prop arg' "content") as [cnt|e']; simpl; [|left; eauto].
    right. right. exists cnt.
    destruct (handleEvent H _ cnt s) as [[r s'] t]. reflexivity.
  - right. left. auto.
  - left. eauto.
Qed.

(** *** What the router sends *)

Section Replies.

Context {H : Host}.
Variable Q : string -> JSVal -> bool.

Lemma sends_ret {A} (a : A) : sends_only (H := H) Q (ret a).
Proof. intros s. reflexivity. Qed.

Lemma sends_lift {A} (o : Outcome A) : sends_only (H := H) Q (lift o).
Proof. intros s. reflexivity. Qed.

Lemma sends_bind {A B} (c : M H A) (f : A -> M H B) :
  sends_only Q c -> (forall a, sends_only Q (f a)) ->
  sends_only Q (bind c f).
Proof.
  intros Hc Hf s. unfold bind. specialize (Hc s).
  destruct (c s) as [[[a|e] s1] t1]; simpl in *; [|exact Hc].
  specialize (Hf a s1). destruct (f a s1) as [[r s2] t2]. simpl in *.
  rewrite forallb_app, Hc, Hf. reflexivity.
Qed.

Lemma sends_if {A} (b : bool) (c c' : M H A) :
  sends_only Q c -> sends_only Q c' -> sends_only Q (if b then c else c').
Proof. destruct b; auto. Qed.

Lemma sends_call_app (f : AppMethod) (args : list JSVal) :
  sends_only (H := H) Q (call_app f args).
Proof.
  intros s. unfold call_app.
  destruct (app_call H f args (app s)) as [r a]. reflexivity.
Qed.

Lemma sends_call_obj (recv : JSVal) (f : string) (args : list JSVal) :
  sends_only (H := H) Q (call_obj recv f args).
Proof.
  intros s. unfold call_obj. destruct (is_nullish recv); [reflexivity|].
  destruct (obj_call H recv f args (app s)) as [r a]. reflexivity.
Qed.

Lemma sends_getConfig : sends_only (H := H) Q getConfig.
Proof. intros s. reflexivity. Qed.

Lemma sends_config_get (k : JSVal) : sends_only (H := H) Q (config_get k).
Proof. intros s. reflexivity. Qed.

Lemma sends_config_getEnv (k : JSVal) :
  sends_only (H := H) Q (config_getEnv k).
Proof. intros s. reflexivity. Qed.

Lemma sends_config_set (k : string) (v : JSVal) :
  sends_only (H := H) Q (config_set k v).
Proof. intros s. reflexivity. Qed.

Lemma sends_config_update (cnt : JSVal) :
  sends_only (H := H) Q (config_update cnt).
Proof. intros s. reflexivity. Qed.

Lemma sends_config_getConfig : sends_only (H := H) Q config_getConfig.
Proof. intros s. reflexivity. Qed.

Lemma sends_config_getSupportedLangs :
  sends_only (H := H) Q config_getSupportedLangs.
Proof. intros s. reflexivity. Qed.

End Replies.

(** [send] replaces an undefined content by an empty mapping, and
    [handleEvent] only passes it reply commands. *)
Lemma sends_send (H : Host) (command : string) (content : JSVal) :
  is_reply_command command = true ->
  sends_only (H := H) well_formed_reply (send command content).
Proof.
  intros Hc s. unfold send, emit, well_formed_reply. simpl.
  rewrite Hc. destruct content; reflexivity.
Qed.

Create HintDb router_sends.
#[export] Hint Resolve sends_ret sends_lift sends_call_app sends_call_obj
  sends_getConfig sends_config_get sends_config_getEnv sends_config_set
  sends_config_update sends_config_getConfig sends_config_getSupportedLangs
  : router_sends.

Ltac sends_step :=
  lazymatch goal with
  | |- sends_only _ (bind _ _) => apply sends_bind; [|intros ?]
  | |- sends_only _ (if _ then _ else _) => apply sends_if
  | |- sends_only _ (send _ _) => apply sends_send; reflexivity
  | |- sends_only _ _ => solve [auto with router_sends]
  end.

Lemma handleCase_sends (H : Host) (c : Command) (cnt : JSVal) :
  sends_only well_formed_reply (handleCase H c cnt).
Proof. destruct c; unfold handleCase; repeat sends_step. Qed.

Lemma handleEvent_sends (H : Host) (cmd cnt : JSVal) :
  sends_only well_formed_reply (handleEvent H cmd cnt).
Proof.
  unfold handleEvent. destruct (select_case cmd) as [c|].
  - apply handleCase_sends.
  - intros s. reflexivity.
Qed.

(** Every message a dispatch sends to the renderer carries one of the
    eight reply commands of [handleEvent], and its content is never
    undefined: [send] puts an empty mapping in its place. *)
Theorem dispatch_replies_well_formed (H : Host) (arg : JSVal) (s : Store H)
    (command : string) (content : JSVal) :
  In (Sent command content) (events (dispatch H arg s)) ->
  In command reply_commands /\ content <> VUndef.
Proof.
  intros Hin.
  assert (Hall : forallb (sent_ok well_formed_reply)
                   (events (dispatch H arg s)) = true).
  { destruct (dispatch_cases H arg s)
      as [(e & _ & -> & _)|[(_ & -> & _)|(cnt & Heq)]];
      [reflexivity|reflexivity|].
    pose proof (handleEvent_sends H (incoming arg "command") cnt s) as Hs.
    rewrite <- Heq in Hs. exact Hs. }
  rewrite forallb_forall in Hall. specialize (Hall _ Hin).
  unfold sent_ok, well_formed_reply in Hall.
  apply andb_prop in Hall as [Hc Hv]. split.
  - unfold is_reply_command in Hc. apply existsb_exists in Hc.
    destruct Hc as (name & Hname & Heqb).
    apply String.eqb_eq in Heqb. subst. exact Hname.
  - intros ->. discriminate Hv.
Qed.

Lemma dispatch_replies_well_formed_witness :
  In "paths" reply_commands /\ VObj [] <> VUndef.
Proof.
  apply (dispatch_replies_well_formed fake_host
           (bare_msg (VStr "get-paths")) idle_store "paths" (VObj [])).
  vm_compute. right. left. reflexivity.
Defined.

(** *** Faults, the configuration and the number of replies *)

(** Split on whatever the environment decides next in an unfolded run. *)
Ltac router_split :=
  repeat (simpl;
    match goal with
    | |- context [app_call ?H ?m ?a ?x] =>
        destruct (app_call H m a x) as [[?|?] ?]
    | |- context [obj_call ?H ?r ?m ?a ?x] =>
        destruct (obj_call H r m a x) as [[?|?] ?]
    | |- context [hasOwnProperty ?v ?k] =>
        destruct (hasOwnProperty v k) as [[|]|?]
    | |- context [get_prop ?v ?k] => destruct (get_prop v k) as [?|?]
    | |- context [is_nullish ?v] => destruct (is_nullish v)
    | |- context [neq ?a ?b] => destruct (neq a b)
    | |- context [json_roundtrip ?v] => destruct (json_roundtrip v) as [?|?]
    | |- context [set_prop ?v ?k ?x] => destruct (set_prop v k x) as [?|?]
    end);
  simpl.

Lemma handleCase_fault (H : Host) (c : Command) (cnt : JSVal) (s : Store H)
    (e : JSVal) :
  c <> CUpdateConfig ->
  fst (fst (handleCase H c cnt s)) = Throw e ->
  sent (snd (handleCase H c cnt s)) = [].
Proof.
  intros Hc.
  destruct c; try contradiction; clear Hc;
    router_unfold; unfold sent; router_split;
    intros Hf; try discriminate Hf; reflexivity.
Qed.

(** In every case of the switch but update-config a reply is the last
    thing the handler does.  So when a dispatch of any other command ends
    in an exception, nothing has been sent to the renderer. *)
Theorem dispatch_fault_sends_nothing (H : Host) (arg : JSVal) (s : Store H)
    (e : JSVal) :
  incoming arg "command" <> VStr "update-config" ->
  outcome (dispatch H arg s) = Throw e ->
  sent (events (dispatch H arg s)) = [].
Proof.
  intros Hne Hf.
  destruct (dispatch_cases H arg s)
    as [(e' & _ & -> & _)|[(Ho & _)|(cnt & Heq)]].
  - reflexivity.
  - rewrite Ho in Hf. discriminate Hf.
  - revert Heq Hf. unfold handleEvent.
    destruct (select_case (incoming arg "command")) as [c|] eqn:Hsel.
    + intros Heq Hf.
      assert (Hc : c <> CUpdateConfig).
      { intros ->. apply Hne.
        destruct (incoming arg "command") as [| |b|n|name|o];
          try discriminate Hsel.
        unfold select_case in Hsel.
        destruct (String.eqb_spec name "update-config") as [->|Hn];
          [reflexivity|].
        exfalso. revert Hsel. unfold command_table. simpl.
        repeat match goal with
               | |- context [String.eqb name ?l] =>
                   destruct (String.eqb_spec name l) as [->|?];
                   [discriminate || contradiction|]
               end.
        discriminate. }
      pose proof (handleCase_fault H c cnt s e Hc) as Hs.
      rewrite <- Heq in Hs. simpl in Hs. apply Hs. exact Hf.
    + intros Heq Hf. apply (f_equal (fun p => fst (fst p))) in Heq.
      simpl in Heq. rewrite Heq in Hf. discriminate Hf.
Qed.

Lemma dispatch_fault_sends_nothing_witness :
  sent (events (dispatch fake_host (msg (VStr "file-search") VNull)
                  (fake_store true false))) = [].
Proof.
  apply (dispatch_fault_sends_nothing fake_host
           (msg (VStr "file-search") VNull) (fake_store true false)
           (TypeError "Cannot read properties of null or undefined")).
  - discriminate.
  - reflexivity.
Defined.

Lemma find_case_sound (name : string) (c : Command)
    (t : list (string * Command)) :
  find_case name t = Some c -> In (name, c) t.
Proof.
  induction t as [|[name' c'] t IH]; simpl; [discriminate|].
  destruct (String.eqb_spec name name') as [->|Hne].
  - intros [= ->]. left. reflexivity.
  - intros Hf. right. exact (IH Hf).
Qed.

Lemma select_case_inv (v : JSVal) (c : Command) :
  select_case v = Some c -> v = VStr (label c).
Proof.
  destruct v as [| |b|n|name|o]; try discriminate.
  unfold select_case. intros Hsel. apply find_case_sound in Hsel.
  unfold command_table in Hsel. simpl in Hsel.
  repeat (destruct Hsel as [Hsel|Hsel];
          [injection Hsel as <- <-; reflexivity|]).
  contradiction.
Qed.

Lemma select_case_of_label (c : Command) :
  select_case (VStr (label c)) = Some c.
Proof. destruct c; reflexivity. Qed.

(** The switch is a bijection between its labels and its cases: a value
    selects a case exactly when it is the string of that case's label, so
    no case is shadowed by an earlier one and nothing but a string selects
    one. *)
Theorem select_case_label (v : JSVal) (c : Command) :
  select_case v = Some c <-> v = VStr (label c).
Proof.
  split.
  - apply select_case_inv.
  - intros ->. apply select_case_of_label.
Qed.

Lemma handleCase_config_writes (H : Host) (c : Command) (cnt : JSVal)
    (s : Store H) :
  writes_config c = false ->
  forallb (fun e => negb (is_config_write e)) (snd (handleCase H c cnt s))
  = true.
Proof.
  destruct c; intros Hw; try discriminate Hw; clear Hw;
    router_unfold; router_split; reflexivity.
Qed.

(** The router itself writes to the configuration under three commands
    only: when a dispatch calls set or update on the configuration
    object, the command of the payload is toggle-theme, toggle-snippets
    or update-config. *)
Theorem dispatch_config_writes (H : Host) (arg : JSVal) (s : Store H)
    (m : CfgMethod) (args : list JSVal) :
  In (CfgCall m args) (events (dispatch H arg s)) ->
  m = CfgSet \/ m = CfgUpdate ->
  incoming arg "command" = VStr "toggle-theme"
  \/ incoming arg "command" = VStr "toggle-snippets"
  \/ incoming arg "command" = VStr "update-config".
Proof.
  intros Hin Hm.
  assert (Hw : is_config_write (CfgCall m args) = true).
  { destruct Hm as [->| ->]; reflexivity. }
  destruct (dispatch_cases H arg s)
    as [(e & _ & He & _)|[(_ & He & _)|(cnt & Heq)]].
  - rewrite He in Hin. destruct Hin.
  - rewrite He in Hin. destruct Hin as [Hin|[]]. discriminate Hin.
  - apply (f_equal snd) in Heq. simpl in Heq. rewrite Heq in Hin.
    revert Hin. unfold handleEvent.
    destruct (select_case (incoming arg "command")) as [c|] eqn:Hsel.
    + intros Hin. destruct (writes_config c) eqn:Hc.
      * apply select_case_inv in Hsel. rewrite Hsel.
        destruct c; try discriminate Hc; auto.
      * pose proof (handleCase_config_writes H c cnt s Hc) as Hall.
        rewrite forallb_forall in Hall. specialize (Hall _ Hin).
        rewrite Hw in Hall. discriminate Hall.
    + intros [Hin|[]]. discriminate Hin.
Qed.

Lemma dispatch_config_writes_witness :
  incoming (msg (VStr "toggle-theme") (VObj [])) "command"
    = VStr "toggle-theme"
  \/ incoming (msg (VStr "toggle-theme") (VObj [])) "command"
     = VStr "toggle-snippets"
  \/ incoming (msg (VStr "toggle-theme") (VObj [])) "command"
     = VStr "update-config".
Proof.
  apply (dispatch_config_writes fake_host (msg (VStr "toggle-theme") (VObj []))
           (fake_store false false) CfgSet [VStr "darkTheme"; VBool true]).
  - vm_compute. do 3 right. left. reflexivity.
  - left. reflexivity.
Defined.

Lemma handleCase_reply_count (H : Host) (c : Command) (cnt : JSVal)
    (s : Store H) :
  length (sent (snd (handleCase H c cnt s)))
  <= match c with CUpdateConfig => 2 | _ => 1 end.
Proof.
  destruct c, cnt; router_unfold; unfold sent; router_split; lia.
Qed.

(** A dispatch sends at most two messages to the renderer, and at most
    one unless the command is update-config. *)
Theorem dispatch_reply_count (H : Host) (arg : JSVal) (s : Store H) :
  length (sent (events (dispatch H arg s))) <= 2
  /\ (incoming arg "command" <> VStr "update-config" ->
      length (sent (events (dispatch H arg s))) <= 1).
Proof.
  destruct (dispatch_cases H arg s)
    as [(e & _ & -> & _)|[(_ & -> & _)|(cnt & Heq)]];
    try (simpl; split; intros; lia).
  apply (f_equal snd) in Heq. simpl in Heq. rewrite Heq.
  unfold handleEvent.
  destruct (select_case (incoming arg "command")) as [c|] eqn:Hsel;
    [|simpl; split; intros; lia].
  pose proof (handleCase_reply_count H c cnt s) as Hn. split.
  - destruct c; lia.
  - intros Hne. destruct c; try lia.
    exfalso. apply Hne. apply select_case_inv in Hsel. exact Hsel.
Qed.

(** *** The sibling handlers *)

(** For a dir-delete whose content is neither null nor undefined and
    does not shadow [hasOwnProperty], the router does for directories
    what file-delete does for files: removeDir with the hash when the
    content has one, else removeDir without argument when getCurrentDir
    reports something other than null or undefined, else nothing; and no
    reply in any case. *)
Theorem dir_delete_dispatch (H : Host) (cnt : JSVal) (s : Store H) :
  is_nullish cnt = false ->
  own_property cnt "hasOwnProperty" = false ->
  dir_delete_contract H cnt s.
Proof.
  intros Hn Hs. unfold dir_delete_contract. rewrite dispatch_msg.
  unfold handleEvent.
  change (select_case (VStr "dir-delete")) with (Some CDirDelete).
  router_unfold.
  rewrite (hasOwnProperty_plain cnt "hash" Hn Hs).
  destruct (own_property cnt "hash").
  - rewrite (get_prop_incoming cnt "hash" Hn).
    destruct (app_call H RemoveDir _ (app s)) as [[r|e] a]; simpl;
      split; reflexivity.
  - destruct (app_call H GetCurrentDir [] (app s)) as [[cur|e] a]; simpl.
    + destruct (neq cur VNull); simpl.
      * destruct (app_call H RemoveDir [] a) as [[r|e] a']; simpl;
          split; reflexivity.
      * split; reflexivity.
    + split; reflexivity.
Qed.

Lemma dir_delete_dispatch_witness :
  dir_delete_contract fake_host (VObj [("hash", VNum 42)])
    (fake_store false false)
  /\ dir_delete_contract fake_host (VStr "docs") idle_store.
Proof.
  split.
  - apply (dir_delete_dispatch fake_host (VObj [("hash", VNum 42)]));
      reflexivity.
  - apply (dir_delete_dispatch fake_host (VStr "docs")); reflexivity.
Defined.

(** Dispatching toggle-snippets twice brings the configuration back:
    with the boolean setting snippets holding [b], it holds [negb b]
    after the first dispatch and [b] again after the second, and the
    configuration as a whole is the one before. *)
Theorem toggle_snippets_twice (H : Host) (c1 c2 : JSVal) (s : Store H)
    (b : bool) :
  settings (config s) !! "snippets" = Some (VBool b) ->
  let d1 := dispatch H (msg (VStr "toggle-snippets") c1) s in
  let d2 := dispatch H (msg (VStr "toggle-snippets") c2) (store d1) in
  cfg_get (VStr "snippets") (config (store d1)) = VBool (negb b)
  /\ cfg_get (VStr "snippets") (config (store d2)) = VBool b
  /\ config (store d2) = config s.
Proof.
  intros Hb d1 d2. subst d1 d2.
  rewrite !dispatch_msg, !toggle_snippets_run. cbn [store config app].
  assert (Hget : cfg_get (VStr "snippets") (config s) = VBool b).
  { unfold cfg_get. rewrite Hb. reflexivity. }
  rewrite !cfg_get_set, Hget, cfg_set_set.
  assert (Hnot : js_not (js_not (VBool b)) = VBool b).
  { unfold js_not. simpl. rewrite Bool.negb_involutive. reflexivity. }
  rewrite Hnot.
  split; [reflexivity|]. split; [reflexivity|].
  apply cfg_set_same. exact Hb.
Qed.

Lemma toggle_snippets_twice_witness :
  config (store (dispatch fake_host (msg (VStr "toggle-snippets") (VObj []))
                   (store (dispatch fake_host
                             (msg (VStr "toggle-snippets") (VObj []))
                             (fake_store true false)))))
  = config (fake_store true false).
Proof.
  apply (toggle_snippets_twice fake_host (VObj []) (VObj [])
           (fake_store true false) false).
  vm_compute. reflexivity.
Defined.

Lemma cfg_get_set_other (k k' : string) (v : JSVal) (c : Config) :
  k <> k' -> cfg_get (VStr k) (cfg_set k' v c) = cfg_get (VStr k) c.
Proof.
  intros Hk. unfold cfg_get, cfg_set. simpl.
  rewrite lookup_insert_ne by congruence. reflexivity.
Qed.

Lemma cfg_set_comm (k k' : string) (v v' : JSVal) (c : Config) :
  k <> k' -> cfg_set k v (cfg_set k' v' c) = cfg_set k' v' (cfg_set k v c).
Proof.
  intros Hk. unfold cfg_set. simpl. f_equal.
  apply insert_insert_ne. exact Hk.
Qed.

(** The two toggles do not interfere: toggle-theme leaves every setting
    but darkTheme as it was, toggle-snippets every setting but snippets,
    and dispatching the two in either order leaves the same
    configuration. *)
Theorem toggles_independent (H : Host) (c1 c2 : JSVal) (s : Store H) :
  let theme := dispatch H (msg (VStr "toggle-theme") c1) in
  let snippets := dispatch H (msg (VStr "toggle-snippets") c2) in
  (forall k, k <> "darkTheme" ->
     cfg_get (VStr k) (config (store (theme s)))
     = cfg_get (VStr k) (config s))
  /\ (forall k, k <> "snippets" ->
       cfg_get (VStr k) (config (store (snippets s)))
       = cfg_get (VStr k) (config s))
  /\ config (store (snippets (store (theme s))))
     = config (store (theme (store (snippets s)))).
Proof.
  intros theme snippets. subst theme snippets. cbv beta.
  rewrite !dispatch_msg, !toggle_theme_run, !toggle_snippets_run.
  cbn [store config app].
  split; [|split].
  - intros k Hk. apply cfg_get_set_other. exact Hk.
  - intros k Hk. apply cfg_get_set_other. exact Hk.
  - rewrite !cfg_get_set_other by discriminate.
    apply cfg_set_comm. discriminate.
Qed.

(** *** update-config on the two settings *)

Lemma update_config_events (H : Host) (cnt : JSVal) (s : Store H) :
  is_nullish cnt = false ->
  sent (events (dispatch H (msg (VStr "update-config") cnt) s))
  = owed_toggles H cnt (config s).
Proof.
  intros Hn. rewrite dispatch_msg. unfold handleEvent.
  change (select_case (VStr "update-config")) with (Some CUpdateConfig).
  router_unfold.
  rewrite !(get_prop_incoming cnt _ Hn). unfold owed_toggles. simpl.
  destruct (neq (incoming cnt "darkTheme") _),
           (neq (incoming cnt "snippets") _); reflexivity.
Qed.

(** On boolean values the comparison of update-config is plain
    inequality: with booleans in the content and in the configuration,
    toggle-theme is sent exactly when the two darkTheme values differ and
    toggle-snippets exactly when the two snippets values differ; an
    update that changes neither sends nothing. *)
Theorem update_config_booleans (H : Host) (o : props) (s : Store H)
    (dark snip dark0 snip0 : bool) :
  lookup_prop "darkTheme" o = Some (VBool dark) ->
  lookup_prop "snippets" o = Some (VBool snip) ->
  settings (config s) !! "darkTheme" = Some (VBool dark0) ->
  settings (config s) !! "snippets" = Some (VBool snip0) ->
  sent (events (dispatch H (msg (VStr "update-config") (VObj o)) s))
  = (if xorb dark dark0 then [Sent "toggle-theme" (VStr "no-emit")] else [])
    ++ (if xorb snip snip0 then [Sent "toggle-snippets" (VStr "no-emit")]
        else []).
Proof.
  intros Hd Hs Hd0 Hs0.
  rewrite update_config_events by reflexivity.
  unfold owed_toggles, incoming, cfg_get. simpl.
  rewrite Hd, Hs, Hd0, Hs0. simpl. unfold neq, loose_neq. simpl.
  destruct dark, dark0, snip, snip0; reflexivity.
Qed.

Lemma update_config_booleans_witness :
  sent (events (dispatch fake_host
                  (msg (VStr "update-config")
                     (VObj [("darkTheme", VBool true);
                            ("snippets", VBool false)]))
                  (fake_store false false)))
  = [Sent "toggle-theme" (VStr "no-emit")].
Proof.
  apply (update_config_booleans fake_host
           [("darkTheme", VBool true); ("snippets", VBool false)]
           (fake_store false false) true false false false);
    vm_compute; reflexivity.
Defined.

(** A content object that leaves a setting out does not leave it alone:
    the missing field reads as undefined, undefined is [!=] to either
    boolean, and so update-config sends the toggle for every boolean
    setting the content does not mention. *)
Theorem update_config_missing_setting (H : Host) (o : props) (s : Store H)
    (dark0 : bool) :
  lookup_prop "darkTheme" o = None ->
  settings (config s) !! "darkTheme" = Some (VBool dark0) ->
  In (Sent "toggle-theme" (VStr "no-emit"))
     (events (dispatch H (msg (VStr "update-config") (VObj o)) s)).
Proof.
  intros Hd Hd0.
  assert (Hin : In (Sent "toggle-theme" (VStr "no-emit"))
                  (sent (events (dispatch H (msg (VStr "update-config")
                                               (VObj o)) s)))).
  { rewrite update_config_events by reflexivity.
    unfold owed_toggles, incoming, cfg_get. simpl.
    rewrite Hd, Hd0. simpl. left. reflexivity. }
  unfold sent in Hin. apply List.filter_In in Hin. tauto.
Qed.

Lemma update_config_missing_setting_witness :
  In (Sent "toggle-theme" (VStr "no-emit"))
     (events (dispatch fake_host
                (msg (VStr "update-config") (VObj [("snippets", VBool true)]))
                (fake_store false true))).
Proof.
  apply (update_config_missing_setting fake_host
           [("snippets", VBool true)] (fake_store false true) false);
    vm_compute; reflexivity.
Defined.

(** *** The commands that are one controller call *)



(** *** Payloads and contents that are not objects *)

Lemma is_digit_pretty_N_char (x : N) : is_digit (pretty_N_char x) = true.
Proof.
  unfold pretty_N_char. destruct x as [|p]; [reflexivity|].
  do 4 (try destruct p as [p|p|]); reflexivity.
Qed.

Lemma all_digits_pretty_N_go (x : N) (k : string) :
  all_digits k = true -> all_digits (pretty_N_go x k) = true.
Proof.
  revert k. induction (N.lt_wf_0 x) as [x _ IH]. intros k Hk.
  destruct (N.eq_dec x 0%N) as [->|Hx].
  - rewrite pretty_N_go_0. exact Hk.
  - rewrite pretty_N_go_step by lia. apply IH.
    + apply N.div_lt; lia.
    + simpl. rewrite is_digit_pretty_N_char, Hk. reflexivity.
Qed.

Lemma all_digits_index_name (n : nat) : all_digits (index_name n) = true.
Proof.
  unfold index_name, pretty, pretty_nat, pretty, pretty_N.
  destruct (decide (N.of_nat n = 0%N)); [reflexivity|].
  apply all_digits_pretty_N_go. reflexivity.
Qed.

(** The own properties of a string are [length] and decimal indices. *)
Lemma string_own_names (str k : string) :
  string_own str k = true -> k = "length" \/ all_digits k = true.
Proof.
  unfold string_own. intros Ho. apply orb_prop in Ho as [Hl|Hi].
  - left. apply String.eqb_eq. exact Hl.
  - right. apply existsb_exists in Hi. destruct Hi as (n & _ & Hn).
    apply String.eqb_eq in Hn. subst k. apply all_digits_index_name.
Qed.

Lemma primitive_own_property (v : JSVal) (k : string) :
  is_primitive v = true -> k <> "length" -> all_digits k = false ->
  own_property v k = false.
Proof.
  intros Hp Hl Hd. destruct v as [| |b|n|str|o]; try discriminate Hp;
    try reflexivity.
  simpl. destruct (string_own str k) eqn:Ho; [|reflexivity].
  apply string_own_names in Ho as [->|Hd']; [contradiction|congruence].
Qed.

(** A payload that is a string, a number or a boolean has no command
    property whatever it holds, so it is dropped silently: the
    diagnostic is logged, nothing is called or sent, and the dispatch
    returns normally. *)
Theorem dispatch_primitive_payload (H : Host) (arg : JSVal) (s : Store H) :
  is_primitive arg = true ->
  outcome (dispatch H arg s) = Ret tt
  /\ events (dispatch H arg s)
     = [ConsoleError (trans H "system.no_command" []) arg]
  /\ store (dispatch H arg s) = s
  /\ message (dispatch H arg s) = arg.
Proof.
  intros Hp. unfold dispatch.
  rewrite hasOwnProperty_plain.
  - rewrite (primitive_own_property arg "command" Hp)
      by (discriminate || reflexivity).
    repeat split; reflexivity.
  - destruct arg; try discriminate Hp; reflexivity.
  - apply (primitive_own_property arg "hasOwnProperty" Hp);
      (discriminate || reflexivity).
Qed.

Lemma dispatch_primitive_payload_witness :
  events (dispatch fake_host (VStr "get-paths") idle_store)
  = [ConsoleError "system.no_command" (VStr "get-paths")].
Proof.
  apply (dispatch_primitive_payload fake_host (VStr "get-paths") idle_store).
  reflexivity.
Defined.

(** A file-delete whose content is a string, a number or a boolean (a
    bare hash, say, instead of an object holding it) is treated as one
    without hash: the value is never passed to removeFile, the router
    asks for the current file instead. *)
Theorem file_delete_primitive_content (H : Host) (cnt : JSVal)
    (s : Store H) :
  is_primitive cnt = true ->
  exists rest,
    events (dispatch H (msg (VStr "file-delete") cnt) s)
    = AppCall GetCurrentFile [] :: rest
    /\ (rest = [] \/ rest = [AppCall RemoveFile []]).
Proof.
  intros Hp. rewrite dispatch_msg. unfold handleEvent.
  change (select_case (VStr "file-delete")) with (Some CFileDelete).
  router_unfold.
  rewrite hasOwnProperty_plain.
  - rewrite (primitive_own_property cnt "hash" Hp)
      by (discriminate || reflexivity).
    destruct (app_call H GetCurrentFile [] (app s)) as [[cur|e] a]; simpl.
    + destruct (neq cur VNull); simpl.
      * destruct (app_call H RemoveFile [] a) as [[r|e] a']; simpl; eauto.
      * eauto.
    + eauto.
  - destruct cnt; try discriminate Hp; reflexivity.
  - apply (primitive_own_property cnt "hasOwnProperty" Hp);
      (discriminate || reflexivity).
Qed.

Lemma file_delete_primitive_content_witness :
  exists rest,
    events (dispatch fake_host (msg (VStr "file-delete") (VNum 42))
              (fake_store false false))
    = AppCall GetCurrentFile [] :: rest
    /\ (rest = [] \/ rest = [AppCall RemoveFile []]).
Proof.
  apply (file_delete_primitive_content fake_host (VNum 42)
           (fake_store false false)).
  reflexivity.
Defined.

(** *** The message object after a dispatch *)

Lemma message_dispatch (H : Host) (arg : JSVal) (s : Store H) :
  message (dispatch H arg s)
  = match hasOwnProperty arg "command", hasOwnProperty arg "content" with
    | Ret true, Ret false =>
        match set_prop arg "content" (VObj []) with
        | Ret arg' => arg'
        | Throw _ => arg
        end
    | _, _ => arg
    end.
Proof.
  unfold dispatch.
  destruct (hasOwnProperty arg "command") as [[|]|e]; try reflexivity.
  destruct (hasOwnProperty arg "content") as [[|]|e]; try reflexivity; simpl.
  - destruct (get_prop arg "command") as [cmd|e],
             (get_prop arg "content") as [cnt|e']; try reflexivity.
    destruct (handleEvent H cmd cnt s) as [[r s'] t]. reflexivity.
  - destruct (set_prop arg "content" (VObj [])) as [arg'|e];
      [|reflexivity].
    destruct (get_prop arg' "command") as [cmd|e],
             (get_prop arg' "content") as [cnt|e']; try reflexivity.
    destruct (handleEvent H cmd cnt s) as [[r s'] t]. reflexivity.
Qed.

(** The change [dispatch] makes to a message is made once: dispatching
    the message object again, in whatever store, leaves it as the first
    dispatch left it; and a message that reached [handleEvent] has a
    content property from then on. *)
Theorem dispatch_message_settled (H : Host) (arg : JSVal) (s s' : Store H) :
  message (dispatch H (message (dispatch H arg s)) s')
  = message (dispatch H arg s)
  /\ (hasOwnProperty arg "command" = Ret true ->
      forall o, arg = VObj o ->
        own_property (message (dispatch H arg s)) "content" = true
        /\ incoming (message (dispatch H arg s)) "command"
           = incoming arg "command").
Proof.
  split.
  - rewrite (message_dispatch H arg s).
    destruct (hasOwnProperty arg "command") as [[|]|e] eqn:Hc;
      try (rewrite message_dispatch, Hc; reflexivity).
    destruct (hasOwnProperty arg "content") as [[|]|e] eqn:Hk;
      try (rewrite message_dispatch, Hc, Hk; reflexivity).
    destruct arg as [| |b|n|str|o]; try discriminate Hc; simpl;
      try (rewrite message_dispatch, Hc, Hk; reflexivity).
    rewrite message_dispatch.
    unfold hasOwnProperty in *. simpl in *.
    rewrite !lookup_prop_assign_other by discriminate.
    rewrite lookup_prop_assign_same.
    destruct (lookup_prop "hasOwnProperty" o); [discriminate Hc|].
    destruct (lookup_prop "command" o); [reflexivity|discriminate Hc].
  - intros Hc o ->. rewrite message_dispatch, Hc.
    unfold hasOwnProperty in *. simpl in *.
    destruct (lookup_prop "hasOwnProperty" o); [discriminate Hc|].
    destruct (lookup_prop "content" o) eqn:Hk; simpl.
    + rewrite Hk. split; reflexivity.
    + rewrite lookup_prop_assign_same. unfold incoming. simpl.
      rewrite lookup_prop_assign_other by discriminate. split; reflexivity.
Qed.

(** *** Lookups that find nothing *)

(** When the path tree knows no file of the requested hash ([findFile]
    returns null or undefined), file-get-quicklook does not answer: the
    call of [withContent] on the missing file throws a TypeError out of
    the dispatch, after the tree was fetched and searched, and nothing is
    sent. *)
Theorem quicklook_unknown_file (H : Host) (cnt : JSVal) (s : Store H)
    (paths file : JSVal) (a a' : App H) :
  app_call H GetPaths [] (app s) = (Ret paths, a) ->
  is_nullish paths = false ->
  obj_call H paths "findFile" [VObj [("hash", cnt)]] a = (Ret file, a') ->
  is_nullish file = true ->
  let d := dispatch H (msg (VStr "file-get-quicklook") cnt) s in
  outcome d = Throw (TypeError "Cannot read properties of null or undefined")
  /\ events d = [AppCall GetPaths [];
                 ObjCall paths "findFile" [VObj [("hash", cnt)]]]
  /\ sent (events d) = [].
Proof.
  intros Hp Hn Hf Hm d. subst d. rewrite dispatch_msg. unfold handleEvent.
  change (select_case (VStr "file-get-quicklook"))
    with (Some CFileGetQuicklook).
  router_unfold. rewrite Hp. simpl. rewrite Hn, Hf. simpl. rewrite Hm.
  repeat split; reflexivity.
Qed.

Lemma quicklook_unknown_file_witness :
  outcome (dispatch bare_tree_host (msg (VStr "file-get-quicklook") (VNum 42))
             bare_tree_store)
  = Throw (TypeError "Cannot read properties of null or undefined").
Proof.
  apply (quicklook_unknown_file bare_tree_host (VNum 42) bare_tree_store
           (VObj [("children", VObj [])]) VNull tt tt); reflexivity.
Defined.

(** The same for file-search: when [findFile] finds no file for the hash
    in the content, the call of [search] on the missing file throws a
    TypeError out of the dispatch and no file-search-result is sent. *)
Theorem search_unknown_file (H : Host) (cnt : JSVal) (s : Store H)
    (paths file : JSVal) (a a' : App H) :
  is_nullish cnt = false ->
  app_call H GetPaths [] (app s) = (Ret paths, a) ->
  is_nullish paths = false ->
  obj_call H paths "findFile" [VObj [("hash", incoming cnt "hash")]] a
    = (Ret file, a') ->
  is_nullish file = true ->
  let d := dispatch H (msg (VStr "file-search") cnt) s in
  outcome d = Throw (TypeError "Cannot read properties of null or undefined")
  /\ events d = [AppCall GetPaths [];
                 ObjCall paths "findFile"
                   [VObj [("hash", incoming cnt "hash")]]]
  /\ sent (events d) = [].
Proof.
  intros Hc Hp Hn Hf Hm d. subst d. rewrite dispatch_msg. unfold handleEvent.
  change (select_case (VStr "file-search")) with (Some CFileSearch).
  router_unfold. rewrite Hp. simpl.
  rewrite !(get_prop_incoming cnt _ Hc). simpl. rewrite Hn, Hf. simpl.
  rewrite Hm. repeat split; reflexivity.
Qed.

Lemma search_unknown_file_witness :
  outcome (dispatch bare_tree_host
             (msg (VStr "file-search")
                (VObj [("hash", VNum 42); ("terms", VObj [])]))
             bare_tree_store)
  = Throw (TypeError "Cannot read properties of null or undefined").
Proof.
  apply (search_unknown_file bare_tree_host
           (VObj [("hash", VNum 42); ("terms", VObj [])]) bare_tree_store
           (VObj [("children", VObj [])]) VNull tt tt); reflexivity.
Defined.

(** *** A toggle, then a query *)

(** The renderer reads back what a toggle wrote: after a toggle-theme on
    the boolean setting [b], a config-get for darkTheme is answered with
    the key and the value [negb b], and with nothing else. *)
Theorem toggle_then_config_get (H : Host) (cnt : JSVal) (s : Store H)
    (b : bool) :
  settings (config s) !! "darkTheme" = Some (VBool b) ->
  sent (events (dispatch H (msg (VStr "config-get") (VStr "darkTheme"))
                  (store (dispatch H (msg (VStr "toggle-theme") cnt) s))))
  = [Sent "config"
       (VObj [("key", VStr "darkTheme"); ("value", VBool (negb b))])].
Proof.
  intros Hb. rewrite !dispatch_msg, toggle_theme_run. cbn [store].
  unfold handleEvent.
  change (select_case (VStr "config-get")) with (Some CConfigGet).
  router_unfold. cbn [config app]. rewrite cfg_get_set.
  unfold cfg_get. rewrite Hb. reflexivity.
Qed.

Lemma toggle_then_config_get_witness :
  sent (events (dispatch fake_host
                  (msg (VStr "config-get") (VStr "darkTheme"))
                  (store (dispatch fake_host
                            (msg (VStr "toggle-theme") (VStr "no-emit"))
                            (fake_store false false)))))
  = [Sent "config"
       (VObj [("key", VStr "darkTheme"); ("value", VBool true)])].
Proof.
  apply (toggle_then_config_get fake_host (VStr "no-emit")
           (fake_store false false) false).
  vm_compute. reflexivity.
Defined.
